(** * connectStarRating: a shallow embedding of the star-rating connector

    Source: src/connectors/star-rating/connectStarRating.js

    The connector is a factory of widgets.  A widget reads the facet counts of
    a search response and the refinements held by the search helper, hands a
    list of rating buckets to a rendering function, and toggles the "N stars
    and up" refinement on request.

    Representation choices.
    - A JavaScript Number that the widget computes with is an integer or NaN
      ([number]); integers are exact, so the rounding of doubles beyond 2^53
      and the two infinities are outside the model.
    - A value that reaches the widget as a string or as an arbitrary JavaScript
      value (a refinement's [value], the argument of [refine]) is represented
      by its numeric coercion, that is by what [Number(...)] returns on it.
      A facet's [name] is represented by the rational it denotes (or by
      [NotNumeric]), so that [Math.round] has something to round.
    - [undefined] is [None]; a "number or undefined" is an [option number].
    - The helper and the rendering function are collaborators: the helper's
      refinement state and the calls made to both are kept in a [world] that
      the methods thread through a state monad. *)

From Stdlib Require Import QArith Qround.
From stdpp Require Import gmap strings list list_numbers sorting pretty.

Local Open Scope Z_scope.

(** ** JavaScript values *)

(** A Number: an integer or NaN. *)
Inductive number : Type :=
| NaN
| Int (z : Z).

Global Instance number_eq_dec : EqDecision number.
Proof. solve_decision. Defined.

Global Instance Int_inj : Inj (=) (=) Int.
Proof. intros x y H. by injection H. Qed.

Abbreviation undefined := None (only parsing).

(** The numeric reading of a facet name. *)
Inductive numeric : Type :=
| NotNumeric
| Rational (q : Q).

(** [Math.round(x)]: the nearest integer, a tie going towards +infinity. *)
Definition Math_round (x : numeric) : number :=
  match x with
  | NotNumeric => NaN
  | Rational q => Int (Qfloor (q + (1 # 2))%Q)
  end.

(** [!x] on a number: true on 0 and on NaN. *)
Definition falsy_number (x : number) : bool :=
  match x with
  | NaN => true
  | Int z => bool_decide (z = 0)
  end.

(** [!x] on a number or undefined. *)
Definition falsy (x : option number) : bool :=
  match x with
  | undefined => true
  | Some n => falsy_number n
  end.

(** [x > m] and [x < y]: false as soon as one side is NaN (undefined
    converts to NaN). *)
Definition gt (x : number) (m : Z) : bool :=
  match x with
  | NaN => false
  | Int z => bool_decide (m < z)
  end.

Definition lt (x : number) (y : option number) : bool :=
  match x, y with
  | Int a, Some (Int b) => bool_decide (a < b)
  | _, _ => false
  end.

(** [x === y] between a number or undefined and a number. *)
Definition strict_eq (x : option number) (y : number) : bool :=
  match x, y with
  | Some (Int a), Int b => bool_decide (a = b)
  | _, _ => false
  end.

(** [x + c] where [x] was read from an object ([undefined] when the key is
    missing) and [c] is a count. *)
Definition plus (x : option number) (c : Z) : number :=
  match x with
  | Some (Int a) => Int (a + c)
  | _ => NaN
  end.

(** [String(z)] for an integer. *)
Definition String (z : Z) : string := pretty z.

(** ** Loops *)

(** The values of [v] in [for (v = from; v >= to; --v)]. *)
Definition countdown (from to : Z) : list Z :=
  reverse (seqZ to (from - to + 1)).

(** The values of [v] in [for (v = from; v <= to; ++v)]. *)
Definition countup (from to : Z) : list Z :=
  seqZ from (to - from + 1).

(** ** The collaborators *)

(** An element of [results.getFacetValues(attribute)]: [{name, count}]. *)
Record facet : Type := Facet {
  facet_name : numeric;
  facet_count : Z;
}.

(** The results object of a search response. *)
Record searchResults : Type := SearchResults {
  getFacetValues : string → list facet;
  nbHits : Z;
}.

(** An element of [helper.getRefinements(attribute)]: [{value}], the value
    read through [Number]. *)
Record refinement : Type := Refinement {
  refinement_value : number;
}.

(** [StarRatingItems]: one rating bucket. *)
Record item : Type := Item {
  stars : list bool;
  name : string;
  value : string;
  count : option number;
  isRefined : bool;
}.

(** [CustomStarRatingWidgetOptions], as the caller passes them. *)
Module WidgetParams.
Record t : Type := Make {
  attributeName : option string;
  max : option Z;
}.
End WidgetParams.

(** [StarRatingRenderingOptions].  The closures [refine] and [createURL] of
    the source are not stored here ([refine] is the method
    [_toggleRefinement] below), nor is [instantSearchInstance], which the
    widget passes on untouched. *)
Record renderingOptions : Type := RenderingOptions {
  items : list item;
  hasNoResults : bool;
  widgetParams : WidgetParams.t;
}.

(** What the widget does to its collaborators, call by call. *)
Inductive event : Type :=
| helper_getRefinements (attribute : string)
| helper_clearRefinements (attribute : string)
| helper_addDisjunctiveFacetRefinement (attribute : string) (v : number)
| helper_search
| renderFn_call (params : renderingOptions) (isFirstRendering : bool).

(** The helper's refinement state and the calls made so far (oldest
    first). *)
Record world : Type := World {
  refinements : gmap string (list number);
  log : list event;
}.

(** ** The state monad of the methods *)

Definition M (A : Type) : Type := world → A * world.

Global Instance M_ret : MRet M := λ A a w, (a, w).
Global Instance M_bind : MBind M := λ A B f m w, let '(a, w') := m w in f a w'.

Definition emit (e : event) : M unit :=
  λ w, (tt, World (refinements w) (log w ++ [e])).

Definition get_refinements : M (gmap string (list number)) :=
  λ w, (refinements w, w).

Definition set_refinements (r : gmap string (list number)) : M unit :=
  λ w, (tt, World r (log w)).

(** [l.forEach(f)] and the body of a [for] loop over the values [l]. *)
Fixpoint forEach {A : Type} (l : list A) (f : A → M unit) : M unit :=
  match l with
  | [] => mret tt
  | x :: l' => f x ;; forEach l' f
  end.

(** Modelled from the spec: the search state helper, an external collaborator
    (section 6): [getRefinements(attribute)] returns the sequence of the values
    applied to [attribute], [clearRefinements(attribute)] removes them all,
    [addDisjunctiveFacetRefinement(attribute, value)] adds [value] to the set
    of values applied to [attribute], and [search()] issues a query. *)
Definition refinementsOf (attribute : string) (r : gmap string (list number)) : list number :=
  default [] (r !! attribute).

Definition getRefinements (attribute : string) : M (list refinement) :=
  emit (helper_getRefinements attribute) ;;
  r ← get_refinements;
  mret (Refinement <$> refinementsOf attribute r).

Definition clearRefinements (attribute : string) : M unit :=
  emit (helper_clearRefinements attribute) ;;
  r ← get_refinements;
  set_refinements (delete attribute r).

Definition addDisjunctiveFacetRefinement (attribute : string) (v : number) : M unit :=
  emit (helper_addDisjunctiveFacetRefinement attribute v) ;;
  r ← get_refinements;
  let applied := refinementsOf attribute r in
  if bool_decide (v ∈ applied) then mret tt
  else set_refinements (<[attribute := applied ++ [v]]> r).

Definition search : M unit := emit helper_search.

Definition renderFn (params : renderingOptions) (isFirstRendering : bool) : M unit :=
  emit (renderFn_call params isFirstRendering).

(** ** The widget: the object returned by the factory

    The three variables are what the methods close over: the options as
    passed, and the two values destructured from them. *)

Section Widget.
Variable widgetParams : WidgetParams.t.
Variable attributeName : string.
Variable max : Z.

(** [getConfiguration()]: the [disjunctiveFacets] of the returned object. *)
Definition getConfiguration : list string := [attributeName].

(** [_getRefinedStar(helper)], lines 192-201. *)
Definition _getRefinedStar : M (option number) :=
  refinements ← getRefinements attributeName;
  mret (foldl (λ refinedStar r,
                 if falsy refinedStar || lt (refinement_value r) refinedStar
                 then Some (refinement_value r)
                 else refinedStar)
              undefined refinements).

(** [_toggleRefinement(helper, facetValue)], lines 181-190; [facetValue] is
    given by [Number(facetValue)]. *)
Definition _toggleRefinement (facetValue : number) : M unit :=
  refinedStar ← _getRefinedStar;
  let isRefined := strict_eq refinedStar facetValue in
  clearRefinements attributeName ;;
  (if negb isRefined then
     match facetValue with
     | Int from =>
         forEach (countup from max)
           (λ val, addDisjunctiveFacetRefinement attributeName (Int val))
     | NaN => mret tt
     end
   else mret tt) ;;
  search.

(** [init], lines 121-133. *)
Definition init : M unit :=
  renderFn (RenderingOptions [] true widgetParams) true.

(** Lines 137-140: the table with the keys [max], ..., [0]. *)
Definition initialValues : gmap Z number :=
  foldl (λ allValues v, <[v := Int 0]> allValues) ∅ (countdown max 0).

(** Lines 141-149: the body of the [forEach] over the facet values. *)
Definition addFacet (allValues : gmap Z number) (facet : facet) : gmap Z number :=
  let val := Math_round (facet_name facet) in
  if falsy_number val || gt val max then allValues
  else
    match val with
    | Int val =>
        foldl (λ allValues v, <[v := plus (allValues !! v) (facet_count facet)]> allValues)
              allValues (countdown val 1)
    | NaN => allValues
    end.

(** Lines 151-169: the body of the loop over [star]. *)
Definition pushStar (allValues : gmap Z number) (refinedStar : option number)
    (facetValues : list item) (star : Z) : list item :=
  let count := allValues !! star in
  if negb (falsy refinedStar) && negb (strict_eq refinedStar (Int star))
     && strict_eq count (Int 0)
  then facetValues
  else
    let stars := foldl (λ stars i, stars ++ [bool_decide (i ≤ star)]) [] (countup 1 max) in
    facetValues ++ [Item stars (String star) (String star) count (strict_eq refinedStar (Int star))].

(** [render], lines 135-179. *)
Definition render (results : searchResults) : M unit :=
  let allValues := foldl addFacet initialValues (getFacetValues results attributeName) in
  refinedStar ← _getRefinedStar;
  let facetValues := foldl (pushStar allValues refinedStar) [] (countdown (max - 1) 1) in
  renderFn (RenderingOptions facetValues (bool_decide (nbHits results = 0)) widgetParams) false.

End Widget.

(** ** Construction *)

(** The [usage] text, lines 3-21. *)
Definition usage : string := "Usage:
var customStarRating = connectStarRating(function render(params, isFirstRendering) {
  // params = {
  //   items,
  //   createURL,
  //   refine,
  //   instantSearchInstance,
  //   hasNoResults,
  //   widgetParams,
  // }
});
search.addWidget(
  customStarRatingI({
    attributeName,
    [ max=5 ],
  })
);
Full documentation available at https://community.algolia.com/instantsearch.js/connectors/connectStarRating.html
".

(** [throw new Error(message)]. *)
Inductive exn : Type :=
| Error (message : string).

(** What a caller hands over as rendering function. *)
Inductive rendering : Type :=
| rendering_undefined
| rendering_not_a_function
| rendering_function.

(** Modelled from the spec: [checkRendering] of lib/utils.js, which is not
    among the sources.  "Render callback absent or not invocable →
    configuration error with usage guidance" (section 7), "surfaced
    immediately" (section 6); nothing else is said of it, so it does nothing
    else. *)
Definition checkRendering (rendering : rendering) (usage : string) : exn + unit :=
  match rendering with
  | rendering_function => inr tt
  | rendering_undefined | rendering_not_a_function => inl (Error usage)
  end.

(** [!s] on a string or undefined. *)
Definition falsy_string (s : option string) : bool :=
  match s with
  | undefined => true
  | Some s => bool_decide (s = "")
  end.

(** The returned widget: the values its methods close over, which are the
    three variables of the section above. *)
Record widget : Type := Widget {
  widget_widgetParams : WidgetParams.t;
  widget_attributeName : string;
  widget_max : Z;
}.

(** The widget factory, lines 106-203; [undefined] is the omitted
    argument. *)
Definition factory (widgetParams : option WidgetParams.t) : exn + widget :=
  let widgetParams := default (WidgetParams.Make undefined undefined) widgetParams in
  let attributeName := WidgetParams.attributeName widgetParams in
  let max := default 5 (WidgetParams.max widgetParams) in
  if falsy_string attributeName then inl (Error usage)
  else inr (Widget widgetParams (default "" attributeName) max).

(** [connectStarRating(renderFn)], lines 103-204. *)
Definition connectStarRating (renderFn : rendering)
    : exn + (option WidgetParams.t → exn + widget) :=
  match checkRendering renderFn usage with
  | inl e => inl e
  | inr _ => inr factory
  end.

(** [connectStarRating(renderFn)(widgetParams)]. *)
Definition construct (renderFn : rendering) (widgetParams : option WidgetParams.t)
    : exn + widget :=
  match connectStarRating renderFn with
  | inl e => inl e
  | inr customStarRating => customStarRating widgetParams
  end.

(** The methods of a constructed widget. *)
Definition widget_init (this : widget) : M unit :=
  init (widget_widgetParams this).

Definition widget_render (this : widget) : searchResults → M unit :=
  render (widget_widgetParams this) (widget_attributeName this) (widget_max this).

Definition widget_refine (this : widget) : number → M unit :=
  _toggleRefinement (widget_attributeName this) (widget_max this).

(** * Notions used in the statements *)

(** What the facet [f] adds at index [v] of the table, in the words of the
    specification: its count when its name rounds to an integer [r] of
    [1..max] and [v] is one of [r], ..., [1]; nothing otherwise. *)
Definition contribution (max v : Z) (f : facet) : Z :=
  match Math_round (facet_name f) with
  | Int r => if bool_decide (1 ≤ r ≤ max ∧ 1 ≤ v ≤ r) then facet_count f else 0
  | NaN => 0
  end.

Definition Zsum (l : list Z) : Z := foldr Z.add 0 l.

(** The cumulative count at [v]: the sum of the contributions. *)
Definition cumulativeCount (max : Z) (facets : list facet) (v : Z) : Z :=
  Zsum (contribution max v <$> facets).

(** The active threshold as a function of the values applied to the
    attribute: the fold of [_getRefinedStar] without the helper call. *)
Definition refinedStarOf (values : list number) : option number :=
  foldl (λ refinedStar v,
           if falsy refinedStar || lt v refinedStar then Some v else refinedStar)
        undefined values.

(** The values [_toggleRefinement] applies again after clearing. *)
Definition reapplied (max : Z) (refinedStar : option number) (facetValue : number)
    : list number :=
  if strict_eq refinedStar facetValue then []
  else
    match facetValue with
    | Int from => Int <$> countup from max
    | NaN => []
    end.

(** The test of line 153 and the object pushed at lines 162-168. *)
Definition hidden (allValues : gmap Z number) (refinedStar : option number) (star : Z) : bool :=
  negb (falsy refinedStar) && negb (strict_eq refinedStar (Int star))
  && strict_eq (allValues !! star) (Int 0).

Definition bucket (max : Z) (allValues : gmap Z number) (refinedStar : option number)
    (star : Z) : item :=
  Item ((λ i, bool_decide (i ≤ star)) <$> countup 1 max)
       (String star) (String star) (allValues !! star)
       (strict_eq refinedStar (Int star)).

(** The buckets of one render call, given the facet values and the active
    threshold. *)
Definition buckets (max : Z) (facets : list facet) (refinedStar : option number)
    : list item :=
  let allValues := foldl (addFacet max) (initialValues max) facets in
  foldl (pushStar max allValues refinedStar) [] (countdown (max - 1) 1).

(** A render call ran to its end on [w]: it read the refinements once, left
    the helper's state as it was, and called the rendering function once,
    with [params] and [isFirstRendering = false]. *)
Definition renders (widgetParams : WidgetParams.t) (attributeName : string) (max : Z)
    (results : searchResults) (w : world) (params : renderingOptions) : Prop :=
  render widgetParams attributeName max results w
  = (tt,
     World (refinements w)
       (log w ++ [helper_getRefinements attributeName; renderFn_call params false])).


(** The calls that change the helper's state or issue a query. *)
Definition mutates (e : event) : bool :=
  match e with
  | helper_clearRefinements _ | helper_addDisjunctiveFacetRefinement _ _
  | helper_search => true
  | helper_getRefinements _ | renderFn_call _ _ => false
  end.

(** [getConfiguration()] of a constructed widget. *)
Definition widget_getConfiguration (this : widget) : list string :=
  getConfiguration (widget_attributeName this).

(** The world after [n] calls [refine(facetValue)] in a row. *)
Definition refineTimes (attributeName : string) (max : Z) (facetValue : number)
    (n : nat) (w : world) : world :=
  Nat.iter n (λ w, snd (_toggleRefinement attributeName max facetValue w)) w.

(** * Properties *)

(** ** Loops as lists *)

Lemma elem_of_countdown (from to k : Z) : k ∈ countdown from to ↔ to ≤ k ≤ from.
Proof. unfold countdown. rewrite elem_of_reverse, elem_of_seqZ. lia. Qed.

Lemma elem_of_countup (from to k : Z) : k ∈ countup from to ↔ from ≤ k ≤ to.
Proof. unfold countup. rewrite elem_of_seqZ. lia. Qed.

Lemma NoDup_countdown (from to : Z) : NoDup (countdown from to).
Proof. unfold countdown. rewrite reverse_Permutation. apply NoDup_seqZ. Qed.

Lemma NoDup_countup (from to : Z) : NoDup (countup from to).
Proof. apply NoDup_seqZ. Qed.

Lemma length_countdown (from to : Z) :
  length (countdown from to) = Z.to_nat (from - to + 1).
Proof. unfold countdown. by rewrite length_reverse, length_seqZ. Qed.

Lemma countdown_nil (from to : Z) : from < to → countdown from to = [].
Proof. intros. unfold countdown. rewrite seqZ_nil by lia. done. Qed.

Lemma countdown_cons (from to : Z) :
  to ≤ from → countdown from to = from :: countdown (from - 1) to.
Proof.
  intros Hle. unfold countdown.
  replace (from - to + 1) with ((from - to) + 1) by lia.
  rewrite seqZ_app by lia. rewrite reverse_app.
  rewrite (seqZ_cons _ 1) by lia. rewrite seqZ_nil by lia. simpl.
  do 3 f_equal; lia.
Qed.

Lemma countup_nil (from to : Z) : to < from → countup from to = [].
Proof. intros. unfold countup. by rewrite seqZ_nil by lia. Qed.

Lemma countup_cons (from to : Z) :
  from ≤ to → countup from to = from :: countup (from + 1) to.
Proof.
  intros. unfold countup. rewrite seqZ_cons by lia. do 2 f_equal; lia.
Qed.

(** A countdown is strictly decreasing. *)
Lemma countdown_sorted (from to : Z) : StronglySorted Z.gt (countdown from to).
Proof.
  remember (Z.to_nat (from - to + 1)) as n eqn:Hn.
  revert from Hn. induction n as [|n IH]; intros from Hn.
  - rewrite countdown_nil by lia. constructor.
  - rewrite countdown_cons by lia. constructor.
    + apply IH. lia.
    + apply Forall_forall. intros k Hk. apply elem_of_countdown in Hk. lia.
Qed.

(** A loop that pushes one element per iteration builds the image of the
    values it runs over. *)
Lemma foldl_push {A B : Type} (f : A → B) (l : list A) (acc : list B) :
  foldl (λ acc x, acc ++ [f x]) acc l = acc ++ (f <$> l).
Proof.
  revert acc. induction l as [|x l IH]; intros acc; simpl.
  - by rewrite app_nil_r.
  - rewrite IH. by rewrite <- app_assoc.
Qed.

Lemma foldl_fmap_list {A B C : Type} (f : A → C → A) (g : B → C) (a : A) (l : list B) :
  foldl f a (g <$> l) = foldl (λ a x, f a (g x)) a l.
Proof. revert a. induction l as [|x l IH]; intros a; simpl; [done|apply IH]. Qed.

(** ** The cumulative-count table *)

Lemma Zsum_snoc (l : list Z) (x : Z) : Zsum (l ++ [x]) = Zsum l + x.
Proof. unfold Zsum. induction l as [|y l IH]; simpl; lia. Qed.

Lemma foldl_insert_lookup (x : number) (l : list Z) (t : gmap Z number) (k : Z) :
  foldl (λ t v, <[v := x]> t) t l !! k
  = if bool_decide (k ∈ l) then Some x else t !! k.
Proof.
  revert t. induction l as [|a l IH]; intros t.
  - case_bool_decide as Hk; [by apply elem_of_nil in Hk|done].
  - cbn [foldl]. rewrite IH.
    rewrite (bool_decide_ext _ _ (elem_of_cons l k a)).
    destruct (decide (k = a)) as [->|Hne].
    + rewrite lookup_insert_eq.
      rewrite (bool_decide_eq_true_2 (a = a ∨ a ∈ l)) by tauto.
      by case_bool_decide.
    + rewrite lookup_insert_ne by done.
      apply (f_equal (λ b : bool, if b then _ else _)).
      apply bool_decide_ext. tauto.
Qed.

Lemma foldl_add_lookup (c : Z) (l : list Z) (t : gmap Z number) (k : Z) :
  NoDup l →
  foldl (λ t v, <[v := plus (t !! v) c]> t) t l !! k
  = if bool_decide (k ∈ l) then Some (plus (t !! k) c) else t !! k.
Proof.
  intros Hnd. revert t.
  induction Hnd as [|a l Ha Hnd IH]; intros t.
  - case_bool_decide as Hk; [by apply elem_of_nil in Hk|done].
  - cbn [foldl]. rewrite IH.
    rewrite (bool_decide_ext _ _ (elem_of_cons l k a)).
    destruct (decide (k = a)) as [->|Hne].
    + rewrite lookup_insert_eq.
      rewrite (bool_decide_eq_true_2 (a = a ∨ a ∈ l)) by tauto.
      by rewrite bool_decide_eq_false_2.
    + rewrite !lookup_insert_ne by done.
      apply (f_equal (λ b : bool, if b then _ else _)).
      apply bool_decide_ext. tauto.
Qed.

Lemma initialValues_lookup (max v : Z) :
  initialValues max !! v = if bool_decide (0 ≤ v ≤ max) then Some (Int 0) else None.
Proof.
  unfold initialValues. rewrite foldl_insert_lookup, lookup_empty.
  by rewrite (bool_decide_ext _ _ (elem_of_countdown max 0 v)).
Qed.

(** One facet value: lines 142-148. *)
Lemma addFacet_lookup (max : Z) (t : gmap Z number) (f : facet) (v : Z) :
  addFacet max t f !! v
  = match Math_round (facet_name f) with
    | Int r =>
        if bool_decide (1 ≤ r ≤ max ∧ 1 ≤ v ≤ r)
        then Some (plus (t !! v) (facet_count f))
        else t !! v
    | NaN => t !! v
    end.
Proof.
  unfold addFacet. destruct (Math_round (facet_name f)) as [|r]; [done|].
  unfold falsy_number, gt.
  destruct (decide (r = 0)) as [->|Hr0].
  { rewrite (bool_decide_eq_true_2 (0 = 0)) by done. cbn [orb].
    rewrite bool_decide_eq_false_2; [done|lia]. }
  rewrite (bool_decide_eq_false_2 (r = 0)) by done. cbn [orb].
  destruct (decide (max < r)) as [Hgt|Hle].
  { rewrite (bool_decide_eq_true_2 (max < r)) by done.
    rewrite bool_decide_eq_false_2; [done|lia]. }
  rewrite (bool_decide_eq_false_2 (max < r)) by done.
  rewrite foldl_add_lookup by apply NoDup_countdown.
  rewrite (bool_decide_ext _ _ (elem_of_countdown r 1 v)).
  apply (f_equal (λ b : bool, if b then _ else _)).
  apply bool_decide_ext. lia.
Qed.


(** The table after the loop over the facet values. *)
Lemma allValues_lookup (max : Z) (facets : list facet) (v : Z) :
  foldl (addFacet max) (initialValues max) facets !! v
  = if bool_decide (0 ≤ v ≤ max)
    then Some (Int (cumulativeCount max facets v))
    else None.
Proof.
  induction facets as [|f facets IH] using rev_ind.
  - simpl. rewrite initialValues_lookup. done.
  - rewrite foldl_app. simpl. rewrite addFacet_lookup, IH.
    unfold cumulativeCount. rewrite fmap_app.
    change (contribution max v <$> [f]) with [contribution max v f].
    rewrite Zsum_snoc.
    assert (contribution max v f
            = match Math_round (facet_name f) with
              | Int r => if bool_decide (1 ≤ r ≤ max ∧ 1 ≤ v ≤ r)
                         then facet_count f else 0
              | NaN => 0
              end) as -> by done.
    destruct (Math_round (facet_name f)) as [|r].
    + by rewrite Z.add_0_r.
    + destruct (decide (1 ≤ r ≤ max ∧ 1 ≤ v ≤ r)) as [Hin|Hout].
      * rewrite !(bool_decide_eq_true_2 (1 ≤ r ≤ max ∧ 1 ≤ v ≤ r)) by done.
        rewrite bool_decide_eq_true_2 by lia. done.
      * rewrite !(bool_decide_eq_false_2 (1 ≤ r ≤ max ∧ 1 ≤ v ≤ r)) by done.
        by rewrite Z.add_0_r.
Qed.

(** ** Running the methods *)

Lemma getRefinedStar_run (attributeName : string) (w : world) :
  _getRefinedStar attributeName w
  = (refinedStarOf (refinementsOf attributeName (refinements w)),
     World (refinements w) (log w ++ [helper_getRefinements attributeName])).
Proof.
  unfold refinedStarOf.
  rewrite <- (foldl_fmap_list
                (λ refinedStar r,
                   if falsy refinedStar || lt (refinement_value r) refinedStar
                   then Some (refinement_value r) else refinedStar)
                Refinement).
  reflexivity.
Qed.

Lemma render_run (widgetParams : WidgetParams.t) (attributeName : string) (max : Z)
    (results : searchResults) (w : world) :
  render widgetParams attributeName max results w
  = (tt,
     World (refinements w)
       (log w ++
        [helper_getRefinements attributeName;
         renderFn_call
           (RenderingOptions
              (buckets max (getFacetValues results attributeName)
                 (fst (_getRefinedStar attributeName w)))
              (bool_decide (nbHits results = 0)) widgetParams)
           false])).
Proof.
  unfold render. unfold mbind, M_bind. rewrite getRefinedStar_run.
  cbn. unfold renderFn, emit. cbn. by rewrite <- app_assoc.
Qed.

(** One iteration of the loop of lines 151-169. *)
Lemma pushStar_step (max : Z) (allValues : gmap Z number) (refinedStar : option number)
    (acc : list item) (star : Z) :
  pushStar max allValues refinedStar acc star
  = if hidden allValues refinedStar star then acc
    else acc ++ [bucket max allValues refinedStar star].
Proof.
  unfold pushStar, hidden, bucket.
  destruct (negb (falsy refinedStar) && negb (strict_eq refinedStar (Int star))
            && strict_eq (allValues !! star) (Int 0)); [done|].
  by rewrite foldl_push.
Qed.

(** The loop keeps the stars that are not hidden. *)
Lemma foldl_pushStar (max : Z) (allValues : gmap Z number) (refinedStar : option number)
    (l : list Z) (acc : list item) :
  foldl (pushStar max allValues refinedStar) acc l
  = acc ++ (bucket max allValues refinedStar
            <$> filter (λ star, ¬ hidden allValues refinedStar star) l).
Proof.
  revert acc. induction l as [|star l IH]; intros acc.
  - by rewrite app_nil_r.
  - cbn [foldl]. rewrite IH, pushStar_step, filter_cons.
    destruct (hidden allValues refinedStar star) eqn:Hh.
    + rewrite decide_False; [done|]. intros Hn. by apply Hn.
    + rewrite decide_True by (by intros ?).
      rewrite fmap_cons, <- app_assoc. done.
Qed.

Lemma buckets_eq (max : Z) (facets : list facet) (refinedStar : option number) :
  buckets max facets refinedStar
  = bucket max (foldl (addFacet max) (initialValues max) facets) refinedStar
    <$> filter (λ star, ¬ hidden (foldl (addFacet max) (initialValues max) facets)
                          refinedStar star)
          (countdown (max - 1) 1).
Proof. unfold buckets. by rewrite foldl_pushStar. Qed.

Lemma renders_buckets (widgetParams : WidgetParams.t) (attributeName : string) (max : Z)
    (results : searchResults) (w : world) :
  renders widgetParams attributeName max results w
    (RenderingOptions
       (buckets max (getFacetValues results attributeName)
          (fst (_getRefinedStar attributeName w)))
       (bool_decide (nbHits results = 0)) widgetParams).
Proof. apply render_run. Qed.

(** ** The emitted buckets *)

Lemma strict_eq_Int_true (x : option number) (b : Z) :
  strict_eq x (Int b) = true ↔ x = Some (Int b).
Proof.
  destruct x as [[|a]|]; simpl; try (split; [done|congruence]).
  rewrite bool_decide_eq_true. split; [by intros ->|congruence].
Qed.

Lemma strict_eq_Int_false (x : option number) (b : Z) :
  strict_eq x (Int b) = false ↔ x ≠ Some (Int b).
Proof.
  rewrite <- strict_eq_Int_true. destruct (strict_eq x (Int b)); split; congruence.
Qed.

Lemma hidden_iff (max : Z) (facets : list facet) (refinedStar : option number) (star : Z) :
  0 ≤ star ≤ max →
  hidden (foldl (addFacet max) (initialValues max) facets) refinedStar star = true
  ↔ falsy refinedStar = false ∧ refinedStar ≠ Some (Int star)
    ∧ cumulativeCount max facets star = 0.
Proof.
  intros Hstar. unfold hidden.
  rewrite allValues_lookup, bool_decide_eq_true_2 by done.
  rewrite !andb_true_iff, !negb_true_iff, strict_eq_Int_false, strict_eq_Int_true.
  split.
  - intros [[? ?] Hc]. split_and!; [done..|]. congruence.
  - intros (? & ? & ->). done.
Qed.

Lemma elem_of_buckets (max : Z) (facets : list facet) (refinedStar : option number)
    (it : item) :
  it ∈ buckets max facets refinedStar
  ↔ ∃ star,
      it = bucket max (foldl (addFacet max) (initialValues max) facets) refinedStar star
      ∧ 1 ≤ star ≤ max - 1
      ∧ hidden (foldl (addFacet max) (initialValues max) facets) refinedStar star = false.
Proof.
  rewrite buckets_eq, list_elem_of_fmap.
  split; intros (star & -> & H); exists star; (split; [done|]).
  - apply list_elem_of_filter in H as [Hh Hin]. apply elem_of_countdown in Hin.
    split; [lia|]. by destruct (hidden _ _ _).
  - apply list_elem_of_filter. destruct H as [Hin Hh]. split.
    + rewrite Hh. by intros ?.
    + apply elem_of_countdown. lia.
Qed.


(** ** Render: the counts *)



(** Scenario A: [max = 5] and the facet counts [{3: 10, 5: 2}]. *)
Example scenario_A_table :
  (λ v, foldl (addFacet 5) (initialValues 5)
          [Facet (Rational (3 # 1)) 10; Facet (Rational (5 # 1)) 2] !! v)
  <$> [0; 1; 2; 3; 4; 5; 6]
  = [Some (Int 0); Some (Int 12); Some (Int 12); Some (Int 12); Some (Int 2);
     Some (Int 2); None].
Proof. vm_compute. reflexivity. Qed.

(** Scenario D: the facet values "0" and "6" with [max = 5], and two names
    that round out of the range. *)
Example scenario_D_dropped :
  foldl (addFacet 5) (initialValues 5)
    [Facet (Rational (0 # 1)) 7; Facet (Rational (6 # 1)) 9;
     Facet (Rational (2 # 5)) 3; Facet (Rational (11 # 2)) 4; Facet NotNumeric 1]
  = initialValues 5.
Proof. vm_compute. reflexivity. Qed.

(** A name between two integers counts for the nearest one: 4.5 rounds to 5
    and 4.4 to 4. *)
Example rounding_half_up :
  Math_round (Rational (9 # 2)) = Int 5 ∧ Math_round (Rational (22 # 5)) = Int 4
  ∧ Math_round (Rational (-5 # 2)) = Int (-2).
Proof. vm_compute. done. Qed.

(** ** Render: which buckets are emitted *)




(** ** Render: the shape of the bucket list *)

Lemma StronglySorted_filter_gt (P : Z → Prop) `{!∀ x, Decision (P x)} (l : list Z) :
  StronglySorted Z.gt l → StronglySorted Z.gt (filter P l).
Proof.
  induction 1 as [|x l Hl IH Hx]; [constructor|].
  rewrite filter_cons. case_decide; [|done].
  constructor; [done|].
  apply Forall_forall. intros y Hy. apply list_elem_of_filter in Hy as [_ Hy].
  by eapply Forall_forall in Hx.
Qed.

Lemma bucket_stars (max : Z) (allValues : gmap Z number) (refinedStar : option number)
    (star i : Z) :
  1 ≤ i ≤ max →
  stars (bucket max allValues refinedStar star) !! Z.to_nat (i - 1)
  = Some (bool_decide (i ≤ star)).
Proof.
  intros Hi. cbn [bucket stars]. unfold countup.
  rewrite list_lookup_fmap, lookup_seqZ_lt by lia. cbn.
  do 2 f_equal. apply bool_decide_ext. lia.
Qed.

(** C4, as amended.  On every render call with configuration [max] the
    bucket list has at most [max - 1] elements when [max >= 1] and is empty
    when [max <= 0], that is at most the larger of [max - 1] and 0; the
    values of the buckets are the decimal writings of distinct integers of
    [1..max-1] in strictly decreasing order ([max] itself is never among
    them); and the [stars] array of the bucket of threshold [star] has length
    [max], its [i]-th entry (counted from 1) being true exactly when
    [i <= star]. *)
Theorem C4_bucket_list_shape (widgetParams : WidgetParams.t)
    (attributeName : string) (max : Z) (results : searchResults) (w : world) :
  ∃ params,
    renders widgetParams attributeName max results w params
    ∧ Z.of_nat (length (items params)) ≤ Z.max 0 (max - 1)
    ∧ (∃ thresholds,
         value <$> items params = String <$> thresholds
         ∧ StronglySorted Z.gt thresholds
         ∧ ∀ star, star ∈ thresholds → 1 ≤ star ≤ max - 1)
    ∧ NoDup (value <$> items params)
    ∧ ∀ it star, it ∈ items params → value it = String star →
        Z.of_nat (length (stars it)) = max
        ∧ ∀ i, 1 ≤ i ≤ max →
            stars it !! Z.to_nat (i - 1) = Some (bool_decide (i ≤ star)).
Proof.
  eexists. split; [apply renders_buckets|]. cbn [items].
  set (facets := getFacetValues results attributeName).
  set (refinedStar := fst (_getRefinedStar attributeName w)).
  set (allValues := foldl (addFacet max) (initialValues max) facets).
  assert (Hvalues :
    value <$> buckets max facets refinedStar
    = String <$> filter (λ star, ¬ hidden allValues refinedStar star)
                   (countdown (max - 1) 1)).
  { rewrite buckets_eq, <- list_fmap_compose. done. }
  split_and!.
  - rewrite buckets_eq, length_fmap.
    pose proof (length_filter (λ star, ¬ hidden allValues refinedStar star)
                  (countdown (max - 1) 1)) as Hlen.
    rewrite length_countdown in Hlen. fold facets allValues. lia.
  - eexists. split; [exact Hvalues|]. split.
    + apply StronglySorted_filter_gt, countdown_sorted.
    + intros star Hin. apply list_elem_of_filter in Hin as [_ Hin].
      apply elem_of_countdown in Hin. lia.
  - rewrite Hvalues. apply (NoDup_fmap_2 pretty).
    apply NoDup_filter, NoDup_countdown.
  - intros it star Hin Hv.
    apply elem_of_buckets in Hin as (s & -> & Hs & _).
    cbn [bucket value] in Hv. apply (inj pretty) in Hv. subst s.
    split.
    + cbn [bucket stars]. rewrite length_fmap. unfold countup.
      rewrite length_seqZ. lia.
    + intros i Hi. by apply bucket_stars.
Qed.

Lemma C4_bucket_list_shape_witness :
  ∃ params,
    renders (WidgetParams.Make (Some "rating") undefined) "rating" 5
      (SearchResults (λ _, [Facet (Rational (3 # 1)) 10; Facet (Rational (5 # 1)) 2]) 12)
      (World ∅ []) params
    ∧ Z.of_nat (length (items params)) ≤ Z.max 0 (5 - 1)
    ∧ NoDup (value <$> items params).
Proof.
  destruct (C4_bucket_list_shape
              (WidgetParams.Make (Some "rating") undefined) "rating" 5
              (SearchResults
                 (λ _, [Facet (Rational (3 # 1)) 10; Facet (Rational (5 # 1)) 2]) 12)
              (World ∅ []))
    as (params & Hrenders & Hlen & _ & Hnodup & _).
  exists params. split; [exact Hrenders|]. split; [exact Hlen|exact Hnodup].
Defined.

(** The bound [max - 1] of the claim as first stated is negative for a
    widget built with [max = 0], which the factory accepts; the list is then
    empty. *)
Lemma C4_counterexample_max_zero :
  ∃ params,
    renders (WidgetParams.Make (Some "rating") (Some 0)) "rating" 0
      (SearchResults (λ _, []) 0) (World ∅ []) params
    ∧ ¬ (Z.of_nat (length (items params)) ≤ 0 - 1).
Proof.
  eexists. split; [apply renders_buckets|]. vm_compute. by intros H.
Qed.

(** Scenario B: as scenario A with the refinement 2 applied, and with no
    facet value at all: the empty buckets are left out except the active
    one. *)
Example scenario_B_active_bucket_kept :
  value <$> buckets 5 [Facet (Rational (3 # 1)) 10; Facet (Rational (5 # 1)) 2]
              (Some (Int 2)) = ["4"; "3"; "2"; "1"]
  ∧ value <$> buckets 5 [] (Some (Int 2)) = ["2"]
  ∧ value <$> buckets 5 [] undefined = ["4"; "3"; "2"; "1"].
Proof. vm_compute. done. Qed.

(** ** Render: the other arguments of the rendering function *)

(** C7. Every render call invokes the rendering function with
    [isFirstRendering = false] and with [hasNoResults] true if and only if
    the number of hits of the results is 0. *)
Theorem C7_hasNoResults_iff_no_hits (widgetParams : WidgetParams.t)
    (attributeName : string) (max : Z) (results : searchResults) (w : world) :
  ∃ params,
    render widgetParams attributeName max results w
    = (tt,
       World (refinements w)
         (log w ++ [helper_getRefinements attributeName; renderFn_call params false]))
    ∧ (hasNoResults params = true ↔ nbHits results = 0).
Proof.
  eexists. split; [apply render_run|].
  cbn [hasNoResults]. apply bool_decide_eq_true.
Qed.

(** C9. A render call leaves the helper's refinement state as it was:
    of the helper it calls [getRefinements] only, never [clearRefinements],
    [addDisjunctiveFacetRefinement] or [search]; the same holds of [init].
    The state changes in the refine callback only. *)
Theorem C9_render_reads_only (widgetParams : WidgetParams.t)
    (attributeName : string) (max : Z) (results : searchResults) (w : world) :
  let after_render := snd (render widgetParams attributeName max results w) in
  let after_init := snd (init widgetParams w) in
  refinements after_render = refinements w
  ∧ (∃ calls, log after_render = log w ++ calls ∧ Forall (λ e, mutates e = false) calls)
  ∧ refinements after_init = refinements w
  ∧ (∃ calls, log after_init = log w ++ calls ∧ Forall (λ e, mutates e = false) calls).
Proof.
  intros after_render after_init. subst after_render after_init.
  rewrite render_run. cbn [snd refinements log].
  split_and!; [done| |done|].
  - eexists. split; [done|]. by repeat constructor.
  - eexists. split; [done|]. by repeat constructor.
Qed.

(** ** Refine: running the toggle *)

Lemma bind_run {A B : Type} (m : M A) (f : A → M B) (w w' : world) (a : A) :
  m w = (a, w') → (m ≫= f) w = f a w'.
Proof. intros H. unfold mbind, M_bind. by rewrite H. Qed.

Lemma refinementsOf_insert (attribute : string) (l : list number)
    (r : gmap string (list number)) :
  refinementsOf attribute (<[attribute := l]> r) = l.
Proof. unfold refinementsOf. by rewrite lookup_insert_eq. Qed.

Lemma refinementsOf_delete (attribute : string) (r : gmap string (list number)) :
  refinementsOf attribute (delete attribute r) = [].
Proof. unfold refinementsOf. by rewrite lookup_delete_eq. Qed.

Lemma clearRefinements_run (attribute : string) (w : world) :
  clearRefinements attribute w
  = (tt, World (delete attribute (refinements w))
           (log w ++ [helper_clearRefinements attribute])).
Proof. reflexivity. Qed.

Lemma addDisjunctiveFacetRefinement_run (attribute : string) (v : number) (w : world) :
  v ∉ refinementsOf attribute (refinements w) →
  addDisjunctiveFacetRefinement attribute v w
  = (tt, World (<[attribute := refinementsOf attribute (refinements w) ++ [v]]>
                  (refinements w))
           (log w ++ [helper_addDisjunctiveFacetRefinement attribute v])).
Proof.
  intros Hv. unfold addDisjunctiveFacetRefinement.
  erewrite bind_run by reflexivity. erewrite bind_run by reflexivity.
  cbn [refinements]. by rewrite bool_decide_eq_false_2.
Qed.

(** The loop of lines 185-187 on values that are not applied yet. *)
Lemma forEach_add_run (attribute : string) (l : list Z) (w : world) :
  NoDup l →
  (∀ k, k ∈ l → Int k ∉ refinementsOf attribute (refinements w)) →
  ∃ r',
    forEach l (λ val, addDisjunctiveFacetRefinement attribute (Int val)) w
    = (tt, World r'
             (log w ++ (helper_addDisjunctiveFacetRefinement attribute <$> (Int <$> l))))
    ∧ refinementsOf attribute r'
      = refinementsOf attribute (refinements w) ++ (Int <$> l)
    ∧ ∀ a, a ≠ attribute → r' !! a = refinements w !! a.
Proof.
  intros Hnd. revert w.
  induction Hnd as [|k l Hk Hnd IH]; intros w Hfresh.
  - exists (refinements w). cbn. rewrite !app_nil_r. by destruct w.
  - cbn [forEach].
    erewrite bind_run
      by (apply addDisjunctiveFacetRefinement_run, Hfresh, list_elem_of_here).
    edestruct IH as (r' & Hrun & Hof & Hother); last first.
    { exists r'. rewrite Hrun. cbn [refinements log] in *. split_and!.
      - by rewrite !fmap_cons, <- app_assoc.
      - rewrite Hof, refinementsOf_insert, fmap_cons, <- app_assoc. done.
      - intros a Ha. rewrite Hother by done. by rewrite lookup_insert_ne. }
    cbn [refinements]. intros k' Hk'. rewrite refinementsOf_insert.
    rewrite elem_of_app, list_elem_of_singleton.
    intros [Hin|Heq].
    + eapply Hfresh; [|exact Hin]. by apply list_elem_of_further.
    + injection Heq as ->. done.
Qed.

(** [_toggleRefinement] runs to its end: it reads the refinements, clears
    those of the attribute, applies the values of [reapplied] in order and
    searches. *)
Lemma toggleRefinement_run (attributeName : string) (max : Z) (facetValue : number)
    (w : world) :
  let added := reapplied max (fst (_getRefinedStar attributeName w)) facetValue in
  ∃ r',
    _toggleRefinement attributeName max facetValue w
    = (tt, World r'
             (log w
              ++ [helper_getRefinements attributeName;
                  helper_clearRefinements attributeName]
              ++ (helper_addDisjunctiveFacetRefinement attributeName <$> added)
              ++ [helper_search]))
    ∧ refinementsOf attributeName r' = added
    ∧ ∀ a, a ≠ attributeName → r' !! a = refinements w !! a.
Proof.
  intros added. subst added. unfold _toggleRefinement, reapplied.
  erewrite bind_run by apply getRefinedStar_run.
  rewrite getRefinedStar_run. cbn [fst].
  set (refinedStar := refinedStarOf _).
  erewrite bind_run by apply clearRefinements_run.
  cbn [refinements log].
  assert (Hnone : ∃ r',
    (mret tt ;; search)
      (World (delete attributeName (refinements w))
         ((log w ++ [helper_getRefinements attributeName])
          ++ [helper_clearRefinements attributeName]))
    = (tt, World r'
             (log w
              ++ [helper_getRefinements attributeName;
                  helper_clearRefinements attributeName]
              ++ (helper_addDisjunctiveFacetRefinement attributeName <$> [])
              ++ [helper_search]))
    ∧ refinementsOf attributeName r' = []
    ∧ ∀ a, a ≠ attributeName → r' !! a = refinements w !! a).
  { eexists. split_and!.
    - unfold mbind, M_bind, mret, M_ret, search, emit. cbn [refinements log].
      rewrite <- !app_assoc. reflexivity.
    - apply refinementsOf_delete.
    - intros a Ha. by rewrite lookup_delete_ne. }
  destruct (strict_eq refinedStar facetValue); cbn [negb]; [exact Hnone|].
  destruct facetValue as [|from]; [exact Hnone|].
  edestruct (forEach_add_run attributeName (countup from max)) as (r' & Hrun & Hof & Hother);
    last first.
  { exists r'. erewrite bind_run by exact Hrun. cbn [refinements log] in *.
    split_and!.
    - unfold search, emit. cbn [refinements log].
      rewrite <- !app_assoc. reflexivity.
    - by rewrite Hof, refinementsOf_delete.
    - intros a Ha. rewrite Hother by done. by rewrite lookup_delete_ne. }
  - cbn [refinements]. intros k _. rewrite refinementsOf_delete. apply not_elem_of_nil.
  - apply NoDup_countup.
Qed.

(** ** The active threshold *)

Lemma foldl_min_spec (a : Z) (zs : list Z) :
  (foldl Z.min a zs = a ∨ foldl Z.min a zs ∈ zs)
  ∧ foldl Z.min a zs ≤ a
  ∧ ∀ z, z ∈ zs → foldl Z.min a zs ≤ z.
Proof.
  revert a. induction zs as [|y zs IH]; intros a; cbn [foldl].
  - split_and!; [by left|lia|]. intros z Hz. by apply elem_of_nil in Hz.
  - destruct (IH (Z.min a y)) as (Hin & Hle & Hall). split_and!.
    + destruct Hin as [Heq|Hin].
      * rewrite Heq. destruct (Z.min_spec a y) as [[_ ->]|[_ ->]].
        -- by left.
        -- right. apply list_elem_of_here.
      * right. by apply list_elem_of_further.
    + lia.
    + intros z Hz. apply elem_of_cons in Hz as [->|Hz]; [lia|by apply Hall].
Qed.

(** From a non-zero integer on, the fold of lines 195-199 keeps the least
    value seen, as long as the values are non-zero integers. *)
Lemma refinedStar_fold_min (a : Z) (zs : list Z) :
  a ≠ 0 → Forall (λ z, z ≠ 0) zs →
  foldl (λ refinedStar v,
           if falsy refinedStar || lt v refinedStar then Some v else refinedStar)
        (Some (Int a)) (Int <$> zs)
  = Some (Int (foldl Z.min a zs)).
Proof.
  intros Ha Hzs. revert a Ha.
  induction Hzs as [|z zs Hz Hzs IH]; intros a Ha; [done|].
  rewrite fmap_cons. cbn [foldl].
  assert ((if falsy (Some (Int a)) || lt (Int z) (Some (Int a))
           then Some (Int z) else Some (Int a))
          = Some (Int (Z.min a z))) as ->.
  { cbn [falsy falsy_number lt]. rewrite (bool_decide_eq_false_2 (a = 0)) by done.
    cbn [orb]. case_bool_decide.
    - by rewrite Z.min_r by lia.
    - by rewrite Z.min_l by lia. }
  apply IH. lia.
Qed.

Lemma nonzero_integers (l : list number) :
  (∀ v, v ∈ l → ∃ z, v = Int z ∧ z ≠ 0) →
  ∃ zs, l = Int <$> zs ∧ Forall (λ z, z ≠ 0) zs.
Proof.
  induction l as [|v l IH]; intros Hl.
  - by exists [].
  - destruct (Hl v) as (z & -> & Hz); [apply list_elem_of_here|].
    destruct IH as (zs & -> & Hzs).
    { intros v Hv. apply Hl. by apply list_elem_of_further. }
    exists (z :: zs). split; [done|by constructor].
Qed.

Lemma refinedStarOf_minimum (l : list number) :
  (∀ v, v ∈ l → ∃ z, v = Int z ∧ z ≠ 0) → l ≠ [] →
  ∃ m, refinedStarOf l = Some (Int m) ∧ Int m ∈ l ∧ ∀ z, Int z ∈ l → m ≤ z.
Proof.
  intros Hl Hne. destruct (nonzero_integers l Hl) as (zs & -> & Hzs).
  destruct zs as [|a zs]; [done|].
  apply Forall_cons in Hzs as [Ha Hzs].
  exists (foldl Z.min a zs).
  destruct (foldl_min_spec a zs) as (Hin & Hle & Hall). split_and!.
  - unfold refinedStarOf. rewrite fmap_cons. cbn [foldl falsy orb].
    by apply refinedStar_fold_min.
  - rewrite fmap_cons. destruct Hin as [->|Hin].
    + apply list_elem_of_here.
    + apply list_elem_of_further. by apply list_elem_of_fmap_2.
  - intros z Hz. rewrite fmap_cons in Hz. apply elem_of_cons in Hz as [Heq|Hz].
    + injection Heq as ->. done.
    + apply (list_elem_of_fmap_inj_2 Int) in Hz. by apply Hall.
Qed.

(** After [refine(T)] on an empty state, with [T] in [1..max], the active
    threshold is [T]. *)
Lemma refinedStarOf_countup (from max : Z) :
  1 ≤ from ≤ max → refinedStarOf (Int <$> countup from max) = Some (Int from).
Proof.
  intros Hfrom.
  destruct (refinedStarOf_minimum (Int <$> countup from max)) as (m & -> & Hin & Hmin).
  - intros v Hv. apply list_elem_of_fmap in Hv as (z & -> & Hz).
    apply elem_of_countup in Hz. exists z. split; [done|lia].
  - rewrite countup_cons by lia. done.
  - assert (Int from ∈ Int <$> countup from max) as Hfirst.
    { apply list_elem_of_fmap_2, elem_of_countup. lia. }
    apply Hmin in Hfirst.
    apply list_elem_of_fmap in Hin as (z & Heq & Hz). injection Heq as ->.
    apply elem_of_countup in Hz. do 2 f_equal. lia.
Qed.




(** ** Refine *)


(** [refine("3")] on a widget with [max = 5], first with no refinement
    applied, then with 3 as the active threshold. *)
Example refine_3_of_5 :
  _toggleRefinement "rating" 5 (Int 3) (World ∅ [])
  = (tt, World {["rating" := [Int 3; Int 4; Int 5]]}
           [helper_getRefinements "rating"; helper_clearRefinements "rating";
            helper_addDisjunctiveFacetRefinement "rating" (Int 3);
            helper_addDisjunctiveFacetRefinement "rating" (Int 4);
            helper_addDisjunctiveFacetRefinement "rating" (Int 5);
            helper_search])
  ∧ _toggleRefinement "rating" 5 (Int 3)
      (World {["rating" := [Int 3; Int 4; Int 5]]} [])
    = (tt, World ∅
             [helper_getRefinements "rating"; helper_clearRefinements "rating";
              helper_search]).
Proof. split; vm_compute; reflexivity. Qed.

(** C6. Starting with no refinement applied to the attribute, for every
    threshold [T] with [1 <= T <= max], [refine(T)] installs the filter
    [T], ..., [max] and a second [refine(T)] leaves no refinement applied to
    the attribute; the other attributes keep their refinements. *)
Theorem C6_toggle_twice_clears (attributeName : string) (max T : Z) (w : world) :
  refinementsOf attributeName (refinements w) = [] →
  1 ≤ T ≤ max →
  let w1 := snd (_toggleRefinement attributeName max (Int T) w) in
  let w2 := snd (_toggleRefinement attributeName max (Int T) w1) in
  refinementsOf attributeName (refinements w1) = Int <$> countup T max
  ∧ refinementsOf attributeName (refinements w1) ≠ []
  ∧ refinementsOf attributeName (refinements w2) = []
  ∧ ∀ a, a ≠ attributeName → refinements w2 !! a = refinements w !! a.
Proof.
  intros Hempty HT w1 w2.
  destruct (toggleRefinement_run attributeName max (Int T) w)
    as (r1 & Hrun1 & Hof1 & Hother1).
  assert (Hfirst : refinementsOf attributeName (refinements w1) = Int <$> countup T max).
  { unfold w1. rewrite Hrun1. cbn [snd refinements]. rewrite Hof1.
    rewrite getRefinedStar_run. cbn [fst]. rewrite Hempty. done. }
  destruct (toggleRefinement_run attributeName max (Int T) w1)
    as (r2 & Hrun2 & Hof2 & Hother2).
  split_and!.
  - done.
  - rewrite Hfirst, countup_cons by lia. done.
  - unfold w2. rewrite Hrun2. cbn [snd refinements]. rewrite Hof2.
    rewrite getRefinedStar_run. cbn [fst]. rewrite Hfirst.
    rewrite refinedStarOf_countup by done.
    unfold reapplied. cbn [strict_eq]. by rewrite bool_decide_eq_true_2.
  - intros a Ha. unfold w2. rewrite Hrun2. cbn [snd refinements].
    rewrite Hother2 by done. unfold w1. rewrite Hrun1. cbn [snd refinements].
    by apply Hother1.
Qed.

Lemma C6_toggle_twice_clears_witness :
  refinementsOf "rating" (refinements (World ∅ [])) = []
  ∧ 1 ≤ 3 ≤ 5
  ∧ refinementsOf "rating"
      (refinements
         (snd (_toggleRefinement "rating" 5 (Int 3)
                 (snd (_toggleRefinement "rating" 5 (Int 3) (World ∅ []))))))
    = [].
Proof.
  split; [reflexivity|]. split; [lia|].
  apply (C6_toggle_twice_clears "rating" 5 3 (World ∅ [])); [reflexivity|lia].
Defined.

(** C10. For every value with [Number(value) > max], [refine(value)]
    leaves no refinement applied to the attribute, whether the value is the
    active threshold or not: it clears the refinements, adds none, and calls
    [search] once; no error is raised. *)
Theorem C10_refine_above_max_clears (attributeName : string) (max n : Z) (w : world) :
  max < n →
  ∃ r',
    _toggleRefinement attributeName max (Int n) w
    = (tt, World r'
             (log w
              ++ [helper_getRefinements attributeName;
                  helper_clearRefinements attributeName;
                  helper_search]))
    ∧ refinementsOf attributeName r' = []
    ∧ ∀ a, a ≠ attributeName → r' !! a = refinements w !! a.
Proof.
  intros Hn.
  destruct (toggleRefinement_run attributeName max (Int n) w)
    as (r' & Hrun & Hof & Hother).
  assert (reapplied max (fst (_getRefinedStar attributeName w)) (Int n) = []) as Hnone.
  { unfold reapplied. destruct (strict_eq _ _); [done|].
    by rewrite countup_nil by lia. }
  rewrite Hnone in Hrun, Hof. by exists r'.
Qed.

Lemma C10_refine_above_max_clears_witness :
  5 < 6
  ∧ refinementsOf "rating"
      (refinements
         (snd (_toggleRefinement "rating" 5 (Int 6)
                 (World {["rating" := [Int 2; Int 3; Int 4; Int 5]]} []))))
    = [].
Proof.
  split; [lia|].
  destruct (C10_refine_above_max_clears "rating" 5 6
              (World {["rating" := [Int 2; Int 3; Int 4; Int 5]]} []) ltac:(lia))
    as (r' & Hrun & Hof & _).
  rewrite Hrun. exact Hof.
Defined.

(** ** Construction *)

(** C8. Building a widget, [connectStarRating(renderFn)(widgetParams)],
    raises the usage error exactly when the rendering function is absent or
    is not a function, or [attributeName] is missing or empty; the first of
    these is raised by [connectStarRating(renderFn)] itself, before any
    factory exists.  Otherwise it returns the widget that closes over the
    options, the attribute name and [max], which is 5 when the options give
    none.  Construction is a function of its two arguments: it has no world
    to act on, and no method can run before it has returned a widget. *)
Theorem C8_construction_fails_fast (renderFn : rendering)
    (widgetParams : option WidgetParams.t) :
  let attributeName := widgetParams ≫= WidgetParams.attributeName in
  (construct renderFn widgetParams = inl (Error usage)
   ↔ renderFn ≠ rendering_function ∨ attributeName = undefined
     ∨ attributeName = Some "")
  ∧ (renderFn ≠ rendering_function ↔ connectStarRating renderFn = inl (Error usage))
  ∧ (∀ options name,
       renderFn = rendering_function → widgetParams = Some options →
       WidgetParams.attributeName options = Some name → name ≠ "" →
       construct renderFn widgetParams
       = inr (Widget options name (default 5 (WidgetParams.max options)))
       ∧ (WidgetParams.max options = undefined →
          construct renderFn widgetParams = inr (Widget options name 5))).
Proof.
  intros attributeName. split_and!.
  - unfold construct, connectStarRating, checkRendering, factory.
    destruct renderFn; try (split; [intros _; by left|done]).
    destruct widgetParams as [[[name|] maxo]|]; cbn.
    + case_bool_decide as Hname.
      * subst name. split; [intros _; by right; right|done].
      * split; [done|]. intros [?|[?|?]]; [done..|]. congruence.
    + split; [intros _; by right; left|done].
    + split; [intros _; by right; left|done].
  - unfold connectStarRating, checkRendering.
    destruct renderFn; split; done.
  - intros options name -> -> Hname Hne.
    unfold construct, connectStarRating, checkRendering, factory. cbn.
    rewrite Hname. cbn. rewrite bool_decide_eq_false_2 by done.
    split; [done|]. by intros ->.
Qed.

Lemma C8_construction_fails_fast_witness :
  construct rendering_function (Some (WidgetParams.Make (Some "rating") undefined))
  = inr (Widget (WidgetParams.Make (Some "rating") undefined) "rating" 5)
  ∧ construct rendering_not_a_function
      (Some (WidgetParams.Make (Some "rating") undefined))
    = inl (Error usage).
Proof.
  destruct (C8_construction_fails_fast rendering_function
              (Some (WidgetParams.Make (Some "rating") undefined)))
    as (_ & _ & Hbuilt).
  destruct (C8_construction_fails_fast rendering_not_a_function
              (Some (WidgetParams.Make (Some "rating") undefined)))
    as (Hfails & _ & _).
  split.
  - apply (Hbuilt _ "rating"); [reflexivity..|done|reflexivity].
  - apply Hfails. by left.
Defined.

Example construction_scenario_C :
  construct rendering_function (Some (WidgetParams.Make undefined (Some 5)))
  = inl (Error usage)
  ∧ construct rendering_function undefined = inl (Error usage)
  ∧ construct rendering_undefined (Some (WidgetParams.Make (Some "rating") undefined))
    = inl (Error usage)
  ∧ construct rendering_function (Some (WidgetParams.Make (Some "rating") undefined))
    = inr (Widget (WidgetParams.Make (Some "rating") undefined) "rating" 5).
Proof. vm_compute. done. Qed.

(** * Further properties of the widget *)

(** ** The counts along the bucket list *)

Lemma contribution_nonneg (max v : Z) (f : facet) :
  0 ≤ facet_count f → 0 ≤ contribution max v f.
Proof.
  intros Hf. unfold contribution.
  destruct (Math_round (facet_name f)); [done|]. by case_bool_decide.
Qed.

Lemma contribution_antitone (max v v' : Z) (f : facet) :
  0 ≤ facet_count f → 1 ≤ v ≤ v' →
  contribution max v' f ≤ contribution max v f.
Proof.
  intros Hf Hv. unfold contribution.
  destruct (Math_round (facet_name f)) as [|r]; [done|].
  repeat case_bool_decide; lia.
Qed.

Lemma cumulativeCount_antitone (max : Z) (facets : list facet) (v v' : Z) :
  Forall (λ f, 0 ≤ facet_count f) facets → 1 ≤ v ≤ v' →
  0 ≤ cumulativeCount max facets v' ≤ cumulativeCount max facets v.
Proof.
  intros Hfacets Hv. unfold cumulativeCount, Zsum.
  induction Hfacets as [|f facets Hf Hfacets IH]; [done|].
  rewrite !fmap_cons. cbn [foldr].
  pose proof (contribution_nonneg max v' f Hf).
  pose proof (contribution_antitone max v v' f Hf Hv). lia.
Qed.

(** X1.  With facet counts that are not negative, the table decreases from index
    1 to index [max] and stays non-negative, so along the emitted list, which
    runs from the highest threshold to the lowest, the counts never
    decrease: "3 stars and up" counts at least what "4 stars and up"
    counts. *)
Theorem counts_decrease_with_the_threshold (widgetParams : WidgetParams.t)
    (attributeName : string) (max : Z) (results : searchResults) (w : world) :
  Forall (λ f, 0 ≤ facet_count f) (getFacetValues results attributeName) →
  (∀ v v', 1 ≤ v ≤ v' → v' ≤ max →
     ∃ c c',
       foldl (addFacet max) (initialValues max)
         (getFacetValues results attributeName) !! v = Some (Int c)
       ∧ foldl (addFacet max) (initialValues max)
           (getFacetValues results attributeName) !! v' = Some (Int c')
       ∧ 0 ≤ c' ≤ c)
  ∧ ∃ params,
      renders widgetParams attributeName max results w params
      ∧ ∀ it it' star star',
          it ∈ items params → it' ∈ items params →
          value it = String star → value it' = String star' →
          star ≤ star' →
          ∃ c c', count it = Some (Int c) ∧ count it' = Some (Int c')
                  ∧ 0 ≤ c' ≤ c.
Proof.
  intros Hcounts. split.
  - intros v v' Hv Hmax. do 2 eexists. rewrite !allValues_lookup.
    rewrite !bool_decide_eq_true_2 by lia.
    split; [done|]. split; [done|]. by apply cumulativeCount_antitone.
  - eexists. split; [apply renders_buckets|]. cbn [items].
    intros it it' star star' Hit Hit' Hv Hv' Hle.
    apply elem_of_buckets in Hit as (s & -> & Hs & _).
    apply elem_of_buckets in Hit' as (s' & -> & Hs' & _).
    cbn [bucket value] in Hv, Hv'.
    apply (inj pretty) in Hv. apply (inj pretty) in Hv'. subst s s'.
    cbn [bucket count]. do 2 eexists. rewrite !allValues_lookup.
    rewrite !bool_decide_eq_true_2 by lia.
    split; [done|]. split; [done|]. apply cumulativeCount_antitone; [done|lia].
Qed.

Lemma counts_decrease_with_the_threshold_witness :
  Forall (λ f, 0 ≤ facet_count f)
    [Facet (Rational (3 # 1)) 10; Facet (Rational (5 # 1)) 2]
  ∧ ∃ c c',
      foldl (addFacet 5) (initialValues 5)
        [Facet (Rational (3 # 1)) 10; Facet (Rational (5 # 1)) 2] !! 2
      = Some (Int c)
      ∧ foldl (addFacet 5) (initialValues 5)
          [Facet (Rational (3 # 1)) 10; Facet (Rational (5 # 1)) 2] !! 4
        = Some (Int c')
      ∧ 0 ≤ c' ≤ c.
Proof.
  assert (Forall (λ f, 0 ≤ facet_count f)
            [Facet (Rational (3 # 1)) 10; Facet (Rational (5 # 1)) 2]) as Hcounts.
  { repeat constructor; cbn; lia. }
  split; [exact Hcounts|].
  destruct (counts_decrease_with_the_threshold
              (WidgetParams.Make (Some "rating") undefined) "rating" 5
              (SearchResults
                 (λ _, [Facet (Rational (3 # 1)) 10; Facet (Rational (5 # 1)) 2]) 12)
              (World ∅ []) Hcounts) as [Htable _].
  apply (Htable 2 4); lia.
Defined.

(** ** The order of the facet values *)

Lemma Zsum_Permutation (l l' : list Z) : l ≡ₚ l' → Zsum l = Zsum l'.
Proof.
  unfold Zsum. induction 1 as [|x l l' _ IH|x y l|l l' l'' _ IH _ IH'];
    cbn [foldr]; lia.
Qed.

Lemma allValues_Permutation (max : Z) (facets facets' : list facet) :
  facets ≡ₚ facets' →
  foldl (addFacet max) (initialValues max) facets
  = foldl (addFacet max) (initialValues max) facets'.
Proof.
  intros Hperm. apply map_eq. intros v. rewrite !allValues_lookup.
  unfold cumulativeCount.
  by rewrite (Zsum_Permutation _ _ (fmap_Permutation (contribution max v) _ _ Hperm)).
Qed.

(** X2.  The order in which the results list the facet values does not matter:
    two responses with the same facet values for the attribute, in any
    order, and the same number of hits are rendered alike. *)
Theorem render_ignores_the_order_of_facet_values (widgetParams : WidgetParams.t)
    (attributeName : string) (max : Z) (results results' : searchResults) (w : world) :
  getFacetValues results attributeName ≡ₚ getFacetValues results' attributeName →
  nbHits results = nbHits results' →
  ∃ params,
    renders widgetParams attributeName max results w params
    ∧ renders widgetParams attributeName max results' w params.
Proof.
  intros Hperm Hhits. eexists. split; [apply renders_buckets|].
  unfold renders. rewrite render_run. unfold buckets.
  by rewrite (allValues_Permutation max _ _ Hperm), Hhits.
Qed.

Lemma render_ignores_the_order_of_facet_values_witness :
  ∃ params,
    renders (WidgetParams.Make (Some "rating") undefined) "rating" 5
      (SearchResults
         (λ _, [Facet (Rational (3 # 1)) 10; Facet (Rational (5 # 1)) 2]) 12)
      (World ∅ []) params
    ∧ renders (WidgetParams.Make (Some "rating") undefined) "rating" 5
        (SearchResults
           (λ _, [Facet (Rational (5 # 1)) 2; Facet (Rational (3 # 1)) 10]) 12)
        (World ∅ []) params.
Proof.
  apply (render_ignores_the_order_of_facet_values
           (WidgetParams.Make (Some "rating") undefined) "rating" 5
           (SearchResults
              (λ _, [Facet (Rational (3 # 1)) 10; Facet (Rational (5 # 1)) 2]) 12)
           (SearchResults
              (λ _, [Facet (Rational (5 # 1)) 2; Facet (Rational (3 # 1)) 10]) 12)
           (World ∅ [])).
  - cbn [getFacetValues]. apply perm_swap.
  - reflexivity.
Defined.

(** ** The stars of a bucket *)

Lemma stars_closed_form (max star : Z) :
  0 ≤ star ≤ max →
  (λ i, bool_decide (i ≤ star)) <$> countup 1 max
  = replicate (Z.to_nat star) true ++ replicate (Z.to_nat (max - star)) false.
Proof.
  intros Hstar. unfold countup.
  replace (max - 1 + 1) with (star + (max - star)) by lia.
  rewrite seqZ_app, fmap_app by lia. f_equal.
  - symmetry. apply replicate_as_elem_of. split.
    + by rewrite length_fmap, length_seqZ.
    + intros b Hb. apply list_elem_of_fmap in Hb as (i & -> & Hi).
      apply elem_of_seqZ in Hi. apply bool_decide_eq_true_2. lia.
  - symmetry. apply replicate_as_elem_of. split.
    + by rewrite length_fmap, length_seqZ.
    + intros b Hb. apply list_elem_of_fmap in Hb as (i & -> & Hi).
      apply elem_of_seqZ in Hi. apply bool_decide_eq_false_2. lia.
Qed.

(** X4.  The [stars] array of the bucket of threshold [star] is [star] filled
    stars followed by [max - star] empty ones. *)
Theorem stars_are_filled_then_empty (widgetParams : WidgetParams.t)
    (attributeName : string) (max : Z) (results : searchResults) (w : world) :
  ∃ params,
    renders widgetParams attributeName max results w params
    ∧ ∀ it star, it ∈ items params → value it = String star →
        stars it
        = replicate (Z.to_nat star) true ++ replicate (Z.to_nat (max - star)) false.
Proof.
  eexists. split; [apply renders_buckets|]. cbn [items].
  intros it star Hit Hv.
  apply elem_of_buckets in Hit as (s & -> & Hs & _).
  cbn [bucket value] in Hv. apply (inj pretty) in Hv. subst s.
  cbn [bucket stars]. apply stars_closed_form. lia.
Qed.

(** ** The list in the two states of the widget *)

Lemma filter_all {A : Type} (P : A → Prop) `{!∀ x, Decision (P x)} (l : list A) :
  (∀ x, x ∈ l → P x) → filter P l = l.
Proof.
  induction l as [|x l IH]; intros Hall; [done|].
  rewrite filter_cons_True by apply Hall, list_elem_of_here.
  f_equal. apply IH. intros y Hy. by apply Hall, list_elem_of_further.
Qed.

Lemma filter_ext_elem_of {A : Type} (P Q : A → Prop)
    `{!∀ x, Decision (P x)} `{!∀ x, Decision (Q x)} (l : list A) :
  (∀ x, x ∈ l → P x ↔ Q x) → filter P l = filter Q l.
Proof.
  induction l as [|x l IH]; intros Hext; [done|].
  rewrite !filter_cons.
  rewrite IH by (intros y Hy; by apply Hext, list_elem_of_further).
  destruct (Hext x (list_elem_of_here _ _)).
  repeat case_decide; tauto.
Qed.

Lemma filter_eq_NoDup (a : Z) (l : list Z) :
  NoDup l → filter (λ x, x = a) l = if bool_decide (a ∈ l) then [a] else [].
Proof.
  induction 1 as [|x l Hx Hnd IH].
  - rewrite bool_decide_eq_false_2; [done|apply not_elem_of_nil].
  - destruct (decide (x = a)) as [->|Hxa].
    + rewrite filter_cons_True, IH by done.
      rewrite (bool_decide_eq_false_2 (a ∈ l)) by done.
      rewrite bool_decide_eq_true_2; [done|apply list_elem_of_here].
    + rewrite filter_cons_False, IH by done.
      apply (f_equal (λ b : bool, if b then _ else _)).
      apply bool_decide_ext. rewrite elem_of_cons.
      split; [by right|]. intros [Heq|Hin]; [congruence|done].
Qed.

Lemma hidden_undefined (allValues : gmap Z number) (star : Z) :
  hidden allValues undefined star = false.
Proof. reflexivity. Qed.

Lemma cumulativeCount_zero (max : Z) (facets : list facet) (v : Z) :
  Forall (λ f, facet_count f = 0) facets → cumulativeCount max facets v = 0.
Proof.
  unfold cumulativeCount, Zsum. induction 1 as [|f facets Hf _ IH]; [done|].
  rewrite fmap_cons. cbn [foldr]. rewrite IH. unfold contribution.
  destruct (Math_round (facet_name f)); [done|]. case_bool_decide; lia.
Qed.

(** X5.  With no refinement applied to the attribute and [max >= 1], the
    rendering function gets all [max - 1] thresholds, [max - 1] first and 1
    last, whatever their counts, and none is flagged as refined. *)
Theorem every_threshold_is_offered_without_refinement (widgetParams : WidgetParams.t)
    (attributeName : string) (max : Z) (results : searchResults) (w : world) :
  refinementsOf attributeName (refinements w) = [] →
  ∃ params,
    renders widgetParams attributeName max results w params
    ∧ value <$> items params = String <$> countdown (max - 1) 1
    ∧ length (items params) = Z.to_nat (max - 1)
    ∧ Forall (λ it, isRefined it = false) (items params).
Proof.
  intros Hnone. eexists. split; [apply renders_buckets|]. cbn [items].
  rewrite getRefinedStar_run. cbn [fst]. rewrite Hnone.
  change (refinedStarOf []) with (@None number).
  rewrite buckets_eq. rewrite filter_all by (intros star _; by intros ?).
  split_and!.
  - by rewrite <- list_fmap_compose.
  - rewrite length_fmap, length_countdown. f_equal. lia.
  - apply Forall_forall. intros it Hit.
    by apply list_elem_of_fmap in Hit as (star & -> & _).
Qed.

Lemma every_threshold_is_offered_without_refinement_witness :
  refinementsOf "rating" (refinements (World ∅ [])) = []
  ∧ ∃ params,
      renders (WidgetParams.Make (Some "rating") undefined) "rating" 5
        (SearchResults (λ _, []) 0) (World ∅ []) params
      ∧ value <$> items params = ["4"; "3"; "2"; "1"].
Proof.
  assert (refinementsOf "rating" (refinements (World ∅ [])) = []) as Hnone
    by reflexivity.
  split; [exact Hnone|].
  destruct (every_threshold_is_offered_without_refinement
              (WidgetParams.Make (Some "rating") undefined) "rating" 5
              (SearchResults (λ _, []) 0) (World ∅ []) Hnone)
    as (params & Hrenders & Hvalues & _).
  exists params. split; [exact Hrenders|]. rewrite Hvalues. vm_compute. reflexivity.
Defined.

(** X6.  When every facet value of the attribute has count 0 (or there is none)
    and the active threshold is a non-zero integer [T], the list holds the
    bucket of [T] alone, flagged as refined and with count 0, provided [T] is
    one of [1..max-1]; for any other [T], such as [max], the list is
    empty. *)
Theorem only_the_active_bucket_without_counts (widgetParams : WidgetParams.t)
    (attributeName : string) (max T : Z) (results : searchResults) (w : world) :
  Forall (λ f, facet_count f = 0) (getFacetValues results attributeName) →
  fst (_getRefinedStar attributeName w) = Some (Int T) →
  T ≠ 0 →
  ∃ params,
    renders widgetParams attributeName max results w params
    ∧ (1 ≤ T ≤ max - 1 →
       ∃ it, items params = [it]
             ∧ name it = String T ∧ value it = String T
             ∧ count it = Some (Int 0) ∧ isRefined it = true)
    ∧ (¬ 1 ≤ T ≤ max - 1 → items params = []).
Proof.
  intros Hzero Hactive HT. eexists. split; [apply renders_buckets|]. cbn [items].
  rewrite Hactive, buckets_eq.
  set (facets := getFacetValues results attributeName) in *.
  set (allValues := foldl (addFacet max) (initialValues max) facets).
  assert (filter (λ star, ¬ hidden allValues (Some (Int T)) star) (countdown (max - 1) 1)
          = if bool_decide (1 ≤ T ≤ max - 1) then [T] else []) as ->.
  { rewrite (filter_ext_elem_of _ (λ star, star = T)).
    - rewrite filter_eq_NoDup by apply NoDup_countdown.
      apply (f_equal (λ b : bool, if b then _ else _)).
      apply bool_decide_ext. apply elem_of_countdown.
    - intros star Hstar. apply elem_of_countdown in Hstar.
      pose proof (hidden_iff max facets (Some (Int T)) star ltac:(lia)) as Hhid.
      fold allValues in Hhid. rewrite (cumulativeCount_zero max facets star Hzero) in Hhid.
      cbn [falsy falsy_number] in Hhid.
      rewrite (bool_decide_eq_false_2 (T = 0)) in Hhid by done.
      destruct (hidden allValues (Some (Int T)) star); split.
      + intros Hn. exfalso. by apply Hn.
      + intros ->. destruct Hhid as [Hhid _].
        by destruct (Hhid eq_refl) as (_ & Hne & _).
      + intros _. destruct (decide (star = T)) as [|Hne]; [done|].
        destruct Hhid as [_ Hhid]. discriminate Hhid.
        split_and!; [done| |done]. intros Heq. by injection Heq as ->.
      + by intros ? ?. }
  split.
  - intros Hin. rewrite bool_decide_eq_true_2 by done.
    eexists. split; [reflexivity|]. cbn [bucket name value count isRefined strict_eq].
    split_and!; [done..| |by apply bool_decide_eq_true_2].
    unfold allValues. rewrite allValues_lookup, bool_decide_eq_true_2 by lia.
    by rewrite (cumulativeCount_zero max facets T Hzero).
  - intros Hout. by rewrite bool_decide_eq_false_2.
Qed.

Lemma only_the_active_bucket_without_counts_witness :
  Forall (λ f, facet_count f = 0)
    (getFacetValues (SearchResults (λ _, [Facet (Rational (4 # 1)) 0]) 0) "rating")
  ∧ fst (_getRefinedStar "rating" (World {["rating" := [Int 2; Int 3; Int 4; Int 5]]} []))
    = Some (Int 2)
  ∧ 2 ≠ 0
  ∧ ∃ params,
      renders (WidgetParams.Make (Some "rating") undefined) "rating" 5
        (SearchResults (λ _, [Facet (Rational (4 # 1)) 0]) 0)
        (World {["rating" := [Int 2; Int 3; Int 4; Int 5]]} []) params
      ∧ value <$> items params = ["2"].
Proof.
  assert (Forall (λ f, facet_count f = 0)
            (getFacetValues (SearchResults (λ _, [Facet (Rational (4 # 1)) 0]) 0)
               "rating")) as Hzero.
  { by repeat constructor. }
  assert (fst (_getRefinedStar "rating"
                 (World {["rating" := [Int 2; Int 3; Int 4; Int 5]]} []))
          = Some (Int 2)) as Hactive by (vm_compute; reflexivity).
  split; [exact Hzero|]. split; [exact Hactive|]. split; [lia|].
  destruct (only_the_active_bucket_without_counts
              (WidgetParams.Make (Some "rating") undefined) "rating" 5 2
              (SearchResults (λ _, [Facet (Rational (4 # 1)) 0]) 0)
              (World {["rating" := [Int 2; Int 3; Int 4; Int 5]]} [])
              Hzero Hactive ltac:(lia))
    as (params & Hrenders & Hin & _).
  exists params. split; [exact Hrenders|].
  destruct (Hin ltac:(lia)) as (it & -> & _ & Hvalue & _).
  cbn [fmap list_fmap]. rewrite Hvalue. vm_compute. reflexivity.
Defined.

(** X7.  At most one bucket of the list is flagged as refined, and one is
    exactly when the active threshold is an integer of [1..max-1]: a filter
    on a threshold that is not offered, such as [max], shows in no bucket. *)
Theorem at_most_one_bucket_is_refined (widgetParams : WidgetParams.t)
    (attributeName : string) (max : Z) (results : searchResults) (w : world) :
  let refinedStar := fst (_getRefinedStar attributeName w) in
  ∃ params,
    renders widgetParams attributeName max results w params
    ∧ (∀ it it', it ∈ items params → it' ∈ items params →
         isRefined it = true → isRefined it' = true → it = it')
    ∧ ((∃ it, it ∈ items params ∧ isRefined it = true)
       ↔ ∃ T, refinedStar = Some (Int T) ∧ 1 ≤ T ≤ max - 1).
Proof.
  intros refinedStar. eexists. split; [apply renders_buckets|]. cbn [items].
  fold refinedStar. split.
  - intros it it' Hit Hit' Href Href'.
    apply elem_of_buckets in Hit as (s & -> & _ & _).
    apply elem_of_buckets in Hit' as (s' & -> & _ & _).
    cbn [bucket isRefined] in Href, Href'.
    apply strict_eq_Int_true in Href, Href'. rewrite Href in Href'.
    by injection Href' as ->.
  - split.
    + intros (it & Hit & Href).
      apply elem_of_buckets in Hit as (s & -> & Hs & _).
      cbn [bucket isRefined] in Href. apply strict_eq_Int_true in Href.
      by exists s.
    + intros (T & HT & Hrange). eexists. split.
      * apply elem_of_buckets. exists T. split; [reflexivity|]. split; [done|].
        unfold hidden. rewrite HT. cbn [strict_eq].
        rewrite (bool_decide_eq_true_2 (T = T)) by done.
        by rewrite andb_false_r.
      * cbn [bucket isRefined]. by apply strict_eq_Int_true.
Qed.

(** ** Refine: the state it leaves *)

(** The refinements of the attribute after one [refine]. *)
Lemma toggled_refinements (attributeName : string) (max : Z) (facetValue : number)
    (w : world) :
  refinementsOf attributeName
    (refinements (snd (_toggleRefinement attributeName max facetValue w)))
  = reapplied max (refinedStarOf (refinementsOf attributeName (refinements w)))
      facetValue.
Proof.
  destruct (toggleRefinement_run attributeName max facetValue w) as (r' & Hrun & Hof & _).
  rewrite Hrun. cbn [snd refinements]. rewrite Hof.
  by rewrite getRefinedStar_run.
Qed.

Lemma getRefinedStar_fst (attributeName : string) (w : world) :
  fst (_getRefinedStar attributeName w)
  = refinedStarOf (refinementsOf attributeName (refinements w)).
Proof. by rewrite getRefinedStar_run. Qed.

(** Once the fold of lines 195-199 holds a non-zero integer, greater or
    equal values do not change it. *)
Lemma refinedStar_fold_keep (a : Z) (zs : list Z) :
  a ≠ 0 → Forall (λ z, a ≤ z) zs →
  foldl (λ refinedStar v,
           if falsy refinedStar || lt v refinedStar then Some v else refinedStar)
        (Some (Int a)) (Int <$> zs)
  = Some (Int a).
Proof.
  intros Ha. induction 1 as [|z zs Hz _ IH]; [done|].
  rewrite fmap_cons. cbn [foldl falsy falsy_number lt].
  rewrite (bool_decide_eq_false_2 (a = 0)) by done.
  rewrite (bool_decide_eq_false_2 (z < a)) by lia. exact IH.
Qed.

Lemma refinedStarOf_countup_nonzero (from max : Z) :
  from ≠ 0 → from ≤ max →
  refinedStarOf (Int <$> countup from max) = Some (Int from).
Proof.
  intros Hfrom Hle. rewrite countup_cons by done.
  unfold refinedStarOf. rewrite fmap_cons. cbn [foldl falsy orb].
  apply refinedStar_fold_keep; [done|].
  apply Forall_forall. intros z Hz. apply elem_of_countup in Hz. lia.
Qed.

(** The falsy 0 at the head of the values is replaced by the 1 that
    follows it. *)
Lemma refinedStarOf_countup_zero (max : Z) :
  1 ≤ max → refinedStarOf (Int <$> countup 0 max) = Some (Int 1).
Proof.
  intros Hmax. rewrite (countup_cons 0) by lia. rewrite (countup_cons (0 + 1)) by lia.
  unfold refinedStarOf. rewrite !fmap_cons. cbn [foldl falsy falsy_number orb].
  rewrite (bool_decide_eq_true_2 (0 = 0)) by done. cbn [orb].
  apply (refinedStar_fold_keep 1); [done|].
  apply Forall_forall. intros z Hz. apply elem_of_countup in Hz. lia.
Qed.

(** X8.  Whatever was applied before, [refine(T)] with [T] a non-zero integer
    at most [max] that is not the active threshold leaves exactly [T], ...,
    [max] applied and makes [T] the active threshold: this is how the widget
    moves from one threshold to another. *)
Theorem refine_moves_to_the_threshold (attributeName : string) (max T : Z) (w : world) :
  T ≠ 0 → T ≤ max →
  fst (_getRefinedStar attributeName w) ≠ Some (Int T) →
  let w' := snd (_toggleRefinement attributeName max (Int T) w) in
  refinementsOf attributeName (refinements w') = Int <$> countup T max
  ∧ fst (_getRefinedStar attributeName w') = Some (Int T).
Proof.
  intros HT Hmax Hother w'.
  assert (refinementsOf attributeName (refinements w') = Int <$> countup T max) as Happlied.
  { unfold w'. rewrite toggled_refinements. unfold reapplied.
    rewrite getRefinedStar_fst in Hother. apply strict_eq_Int_false in Hother.
    by rewrite Hother. }
  split; [exact Happlied|].
  rewrite getRefinedStar_fst, Happlied. by apply refinedStarOf_countup_nonzero.
Qed.

Lemma refine_moves_to_the_threshold_witness :
  3 ≠ 0 ∧ 3 ≤ 5
  ∧ fst (_getRefinedStar "rating" (World {["rating" := [Int 2; Int 3; Int 4; Int 5]]} []))
    ≠ Some (Int 3)
  ∧ fst (_getRefinedStar "rating"
           (snd (_toggleRefinement "rating" 5 (Int 3)
                   (World {["rating" := [Int 2; Int 3; Int 4; Int 5]]} []))))
    = Some (Int 3).
Proof.
  assert (fst (_getRefinedStar "rating"
                 (World {["rating" := [Int 2; Int 3; Int 4; Int 5]]} []))
          ≠ Some (Int 3)) as Hother by (vm_compute; congruence).
  split; [lia|]. split; [lia|]. split; [exact Hother|].
  apply (refine_moves_to_the_threshold "rating" 5 3
           (World {["rating" := [Int 2; Int 3; Int 4; Int 5]]} []));
    [lia|lia|exact Hother].
Defined.

Lemma refineTimes_S (attributeName : string) (max : Z) (facetValue : number)
    (n : nat) (w : world) :
  refineTimes attributeName max facetValue (S n) w
  = snd (_toggleRefinement attributeName max facetValue
           (refineTimes attributeName max facetValue n w)).
Proof. reflexivity. Qed.

(** X9.  Starting with no refinement on the attribute, repeated calls
    [refine(T)], [T] a non-zero integer at most [max], switch the filter on
    and off in turn: after an odd number of calls [T], ..., [max] are
    applied, after an even number nothing is. *)
Theorem refine_alternates (attributeName : string) (max T : Z) (n : nat) (w : world) :
  refinementsOf attributeName (refinements w) = [] →
  T ≠ 0 → T ≤ max →
  refinementsOf attributeName
    (refinements (refineTimes attributeName max (Int T) n w))
  = if Nat.even n then [] else Int <$> countup T max.
Proof.
  intros Hempty HT Hmax. induction n as [|n IH]; [exact Hempty|].
  rewrite refineTimes_S, toggled_refinements, IH.
  rewrite Nat.even_succ, <- Nat.negb_even.
  destruct (Nat.even n); cbn [negb].
  - done.
  - rewrite refinedStarOf_countup_nonzero by done.
    unfold reapplied. cbn [strict_eq]. by rewrite bool_decide_eq_true_2.
Qed.

Lemma refine_alternates_witness :
  refinementsOf "rating" (refinements (World ∅ [])) = []
  ∧ 4 ≠ 0 ∧ 4 ≤ 5
  ∧ refinementsOf "rating" (refinements (refineTimes "rating" 5 (Int 4) 3 (World ∅ [])))
    = [Int 4; Int 5].
Proof.
  assert (refinementsOf "rating" (refinements (World ∅ [])) = []) as Hempty
    by reflexivity.
  split; [exact Hempty|]. split; [lia|]. split; [lia|].
  rewrite (refine_alternates "rating" 5 4 3 (World ∅ []) Hempty) by lia.
  vm_compute. reflexivity.
Defined.

(** X10.  [refine(0)] is no on/off switch.  On a widget with [max >= 1] and no
    refinement applied, any number [n + 1] of calls [refine(0)] leaves 0,
    ..., [max] applied, with 1 as the active threshold, since line 196 takes
    the 0 it holds for "nothing yet"; a call [refine(1)] then removes the
    filter. *)
Theorem refine_zero_is_not_switched_off (attributeName : string) (max : Z) (n : nat)
    (w : world) :
  refinementsOf attributeName (refinements w) = [] →
  1 ≤ max →
  let w' := refineTimes attributeName max (Int 0) (S n) w in
  refinementsOf attributeName (refinements w') = Int <$> countup 0 max
  ∧ fst (_getRefinedStar attributeName w') = Some (Int 1)
  ∧ refinementsOf attributeName
      (refinements (snd (_toggleRefinement attributeName max (Int 1) w')))
    = [].
Proof.
  intros Hempty Hmax w'.
  assert (refinementsOf attributeName (refinements w') = Int <$> countup 0 max) as Happlied.
  { unfold w'. clear w'. induction n as [|n IH].
    - rewrite refineTimes_S, toggled_refinements. cbn [refineTimes Nat.iter nat_rect].
      by rewrite Hempty.
    - rewrite refineTimes_S, toggled_refinements, IH, refinedStarOf_countup_zero by done.
      unfold reapplied. cbn [strict_eq]. by rewrite bool_decide_eq_false_2. }
  split; [exact Happlied|]. split.
  - rewrite getRefinedStar_fst, Happlied. by apply refinedStarOf_countup_zero.
  - rewrite toggled_refinements, Happlied, refinedStarOf_countup_zero by done.
    unfold reapplied. cbn [strict_eq]. by rewrite bool_decide_eq_true_2.
Qed.

Lemma refine_zero_is_not_switched_off_witness :
  refinementsOf "rating" (refinements (World ∅ [])) = []
  ∧ 1 ≤ 5
  ∧ refinementsOf "rating" (refinements (refineTimes "rating" 5 (Int 0) 2 (World ∅ [])))
    = [Int 0; Int 1; Int 2; Int 3; Int 4; Int 5].
Proof.
  assert (refinementsOf "rating" (refinements (World ∅ [])) = []) as Hempty
    by reflexivity.
  split; [exact Hempty|]. split; [lia|].
  destruct (refine_zero_is_not_switched_off "rating" 5 1 (World ∅ []) Hempty
              ltac:(lia)) as (Happlied & _).
  rewrite Happlied. vm_compute. reflexivity.
Defined.

(** X11.  [refine] of a value that is not a number ([Number(value)] is NaN)
    removes the filter of the attribute and searches: NaN equals no active
    threshold and the loop of line 185 does not run on it. *)
Theorem refine_of_a_non_number_clears (attributeName : string) (max : Z) (w : world) :
  ∃ r',
    _toggleRefinement attributeName max NaN w
    = (tt, World r'
             (log w
              ++ [helper_getRefinements attributeName;
                  helper_clearRefinements attributeName;
                  helper_search]))
    ∧ refinementsOf attributeName r' = []
    ∧ ∀ a, a ≠ attributeName → r' !! a = refinements w !! a.
Proof.
  destruct (toggleRefinement_run attributeName max NaN w) as (r' & Hrun & Hof & Hother).
  assert (reapplied max (fst (_getRefinedStar attributeName w)) NaN = []) as Hnone.
  { unfold reapplied. by destruct (strict_eq _ _). }
  rewrite Hnone in Hrun, Hof. by exists r'.
Qed.

(** ** Refine, then render *)

(** X12.  After [refine(T)] for a threshold [T] of [1..max-1] that was not
    active, the next render hands over the bucket of [T] flagged as refined,
    whatever its count, and flags no other bucket. *)
Theorem refined_bucket_shows_in_the_next_render (widgetParams : WidgetParams.t)
    (attributeName : string) (max T : Z) (results : searchResults) (w : world) :
  1 ≤ T ≤ max - 1 →
  fst (_getRefinedStar attributeName w) ≠ Some (Int T) →
  ∃ params,
    renders widgetParams attributeName max results
      (snd (_toggleRefinement attributeName max (Int T) w)) params
    ∧ ∃ it, it ∈ items params ∧ value it = String T ∧ isRefined it = true
            ∧ ∀ it', it' ∈ items params → isRefined it' = true → it' = it.
Proof.
  intros HT Hother. eexists. split; [apply renders_buckets|]. cbn [items].
  set (w' := snd (_toggleRefinement attributeName max (Int T) w)).
  assert (fst (_getRefinedStar attributeName w') = Some (Int T)) as Hactive.
  { rewrite getRefinedStar_fst. unfold w'. rewrite toggled_refinements.
    rewrite getRefinedStar_fst in Hother. apply strict_eq_Int_false in Hother.
    unfold reapplied. rewrite Hother.
    apply refinedStarOf_countup_nonzero; lia. }
  rewrite Hactive. eexists. split_and!.
  - apply elem_of_buckets. exists T. split; [reflexivity|]. split; [done|].
    unfold hidden. cbn [strict_eq].
    rewrite (bool_decide_eq_true_2 (T = T)) by done. by rewrite andb_false_r.
  - done.
  - cbn [bucket isRefined strict_eq]. by apply bool_decide_eq_true_2.
  - intros it' Hit' Href.
    apply elem_of_buckets in Hit' as (s & -> & _ & _).
    cbn [bucket isRefined] in Href. apply strict_eq_Int_true in Href.
    by injection Href as ->.
Qed.

Lemma refined_bucket_shows_in_the_next_render_witness :
  1 ≤ 3 ≤ 5 - 1
  ∧ fst (_getRefinedStar "rating" (World ∅ [])) ≠ Some (Int 3)
  ∧ ∃ params,
      renders (WidgetParams.Make (Some "rating") undefined) "rating" 5
        (SearchResults (λ _, []) 0)
        (snd (_toggleRefinement "rating" 5 (Int 3) (World ∅ []))) params
      ∧ ∃ it, it ∈ items params ∧ value it = String 3 ∧ isRefined it = true.
Proof.
  assert (fst (_getRefinedStar "rating" (World ∅ [])) ≠ Some (Int 3)) as Hother
    by (vm_compute; congruence).
  split; [lia|]. split; [exact Hother|].
  destruct (refined_bucket_shows_in_the_next_render
              (WidgetParams.Make (Some "rating") undefined) "rating" 5 3
              (SearchResults (λ _, []) 0) (World ∅ []) ltac:(lia) Hother)
    as (params & Hrenders & it & Hit & Hvalue & Href & _).
  exists params. split; [exact Hrenders|]. by exists it.
Defined.

(** ** What a render depends on *)

(** X13.  Rendering twice in a row, with the same results, calls the rendering
    function twice with the same arguments: the first render leaves nothing
    behind that the second reads. *)
Theorem render_twice_renders_alike (widgetParams : WidgetParams.t)
    (attributeName : string) (max : Z) (results : searchResults) (w : world) :
  ∃ params,
    (render widgetParams attributeName max results ;;
     render widgetParams attributeName max results) w
    = (tt,
       World (refinements w)
         (log w
          ++ [helper_getRefinements attributeName; renderFn_call params false;
              helper_getRefinements attributeName; renderFn_call params false])).
Proof.
  eexists. erewrite bind_run by apply render_run.
  rewrite render_run. cbn [refinements log].
  rewrite !getRefinedStar_fst. cbn [refinements].
  rewrite <- app_assoc. reflexivity.
Qed.



(** ** A constructed widget *)

(** X15.  A widget is only ever built from a rendering function and options
    with a non-empty attribute name; it then closes over these options, over
    the name and over [max] or 5, and [getConfiguration] asks for this one
    attribute as a disjunctive facet. *)
Theorem constructed_widget_declares_its_attribute (renderFn : rendering)
    (widgetParams : option WidgetParams.t) (this : widget) :
  construct renderFn widgetParams = inr this →
  renderFn = rendering_function
  ∧ ∃ options name,
      widgetParams = Some options
      ∧ WidgetParams.attributeName options = Some name
      ∧ name ≠ ""
      ∧ this = Widget options name (default 5 (WidgetParams.max options))
      ∧ widget_getConfiguration this = [name].
Proof.
  unfold construct, connectStarRating, checkRendering, factory.
  destruct renderFn; [done..|].
  destruct widgetParams as [[[name|] maxo]|]; cbn; [|done..].
  case_bool_decide as Hname; [done|].
  intros Hthis. injection Hthis as <-.
  split; [done|]. by exists (WidgetParams.Make (Some name) maxo), name.
Qed.

Lemma constructed_widget_declares_its_attribute_witness :
  construct rendering_function (Some (WidgetParams.Make (Some "rating") undefined))
  = inr (Widget (WidgetParams.Make (Some "rating") undefined) "rating" 5)
  ∧ widget_getConfiguration
      (Widget (WidgetParams.Make (Some "rating") undefined) "rating" 5)
    = ["rating"].
Proof.
  assert (construct rendering_function
            (Some (WidgetParams.Make (Some "rating") undefined))
          = inr (Widget (WidgetParams.Make (Some "rating") undefined) "rating" 5))
    as Hbuilt by reflexivity.
  split; [exact Hbuilt|].
  destruct (constructed_widget_declares_its_attribute _ _ _ Hbuilt)
    as (_ & options & name & _ & _ & _ & Hthis & Hconf).
  injection Hthis as _ Hname _. rewrite <- Hname in Hconf. exact Hconf.
Defined.

(** X16.  The rendering function always gets the options as the caller wrote
    them, not the defaults: a constructed widget passes them on in [init],
    together with an empty list, [hasNoResults = true] and
    [isFirstRendering = true] and without a call to the helper, and in
    [render], where every bucket has as many stars as the [max] the widget
    closed over, 5 if the options give none. *)
Theorem options_are_passed_on_unchanged (renderFn : rendering)
    (options : WidgetParams.t) (this : widget) (results : searchResults) (w : world) :
  construct renderFn (Some options) = inr this →
  widget_init this w
  = (tt,
     World (refinements w)
       (log w ++ [renderFn_call (RenderingOptions [] true options) true]))
  ∧ ∃ its,
      widget_render this results w
      = (tt,
         World (refinements w)
           (log w
            ++ [helper_getRefinements (widget_attributeName this);
                renderFn_call
                  (RenderingOptions its (bool_decide (nbHits results = 0)) options)
                  false]))
      ∧ ∀ it, it ∈ its →
          Z.of_nat (length (stars it)) = default 5 (WidgetParams.max options).
Proof.
  intros Hbuilt.
  assert (this = Widget options (widget_attributeName this)
                   (default 5 (WidgetParams.max options))) as Hthis.
  { unfold construct, connectStarRating, checkRendering, factory in Hbuilt.
    destruct renderFn; [done..|]. cbn in Hbuilt.
    destruct (falsy_string (WidgetParams.attributeName options)); [done|].
    by injection Hbuilt as <-. }
  unfold widget_init, widget_render. rewrite Hthis.
  cbn [widget_widgetParams widget_attributeName widget_max].
  split; [reflexivity|]. eexists. split; [apply render_run|].
  intros it Hit. apply elem_of_buckets in Hit as (star & -> & Hstar & _).
  cbn [bucket stars]. rewrite length_fmap. unfold countup.
  rewrite length_seqZ. lia.
Qed.

Lemma options_are_passed_on_unchanged_witness :
  construct rendering_function (Some (WidgetParams.Make (Some "rating") undefined))
  = inr (Widget (WidgetParams.Make (Some "rating") undefined) "rating" 5)
  ∧ widget_init (Widget (WidgetParams.Make (Some "rating") undefined) "rating" 5)
      (World ∅ [])
    = (tt,
       World ∅
         [renderFn_call
            (RenderingOptions [] true (WidgetParams.Make (Some "rating") undefined))
            true]).
Proof.
  assert (construct rendering_function
            (Some (WidgetParams.Make (Some "rating") undefined))
          = inr (Widget (WidgetParams.Make (Some "rating") undefined) "rating" 5))
    as Hbuilt by reflexivity.
  split; [exact Hbuilt|].
  destruct (options_are_passed_on_unchanged _ _ _ (SearchResults (λ _, []) 0)
              (World ∅ []) Hbuilt) as [Hinit _].
  exact Hinit.
Defined.

(** ** Names that round alike *)

(** X3.  A facet value counts by the integer its name rounds to and by nothing
    else of the name: replacing each name by one that rounds to the same
    integer (3.6 by 4, or 4.4 by 4) changes neither the table nor what is
    rendered. *)
Theorem render_sees_rounded_names_only (widgetParams : WidgetParams.t)
    (attributeName : string) (max : Z) (results results' : searchResults) (w : world) :
  Forall2 (λ f f', Math_round (facet_name f) = Math_round (facet_name f')
                   ∧ facet_count f = facet_count f')
    (getFacetValues results attributeName) (getFacetValues results' attributeName) →
  nbHits results = nbHits results' →
  foldl (addFacet max) (initialValues max) (getFacetValues results attributeName)
  = foldl (addFacet max) (initialValues max) (getFacetValues results' attributeName)
  ∧ ∃ params,
      renders widgetParams attributeName max results w params
      ∧ renders widgetParams attributeName max results' w params.
Proof.
  intros Halike Hhits.
  assert (foldl (addFacet max) (initialValues max) (getFacetValues results attributeName)
          = foldl (addFacet max) (initialValues max)
              (getFacetValues results' attributeName)) as Htable.
  { apply map_eq. intros v. rewrite !allValues_lookup.
    apply (f_equal (λ c, if bool_decide (0 ≤ v ≤ max) then Some (Int c) else None)).
    unfold cumulativeCount, Zsum.
    induction Halike as [|f f' facets facets' [Hname Hcount] _ IH]; [done|].
    rewrite !fmap_cons. cbn [foldr]. rewrite IH. f_equal.
    unfold contribution. by rewrite Hname, Hcount. }
  split; [exact Htable|].
  eexists. split; [apply renders_buckets|].
  unfold renders. rewrite render_run. unfold buckets. by rewrite Htable, Hhits.
Qed.

Lemma render_sees_rounded_names_only_witness :
  ∃ params,
    renders (WidgetParams.Make (Some "rating") undefined) "rating" 5
      (SearchResults
         (λ _, [Facet (Rational (18 # 5)) 10; Facet (Rational (22 # 5)) 2]) 12)
      (World ∅ []) params
    ∧ renders (WidgetParams.Make (Some "rating") undefined) "rating" 5
        (SearchResults
           (λ _, [Facet (Rational (4 # 1)) 10; Facet (Rational (4 # 1)) 2]) 12)
        (World ∅ []) params.
Proof.
  apply (render_sees_rounded_names_only
           (WidgetParams.Make (Some "rating") undefined) "rating" 5
           (SearchResults
              (λ _, [Facet (Rational (18 # 5)) 10; Facet (Rational (22 # 5)) 2]) 12)
           (SearchResults
              (λ _, [Facet (Rational (4 # 1)) 10; Facet (Rational (4 # 1)) 2]) 12)
           (World ∅ [])).
  - cbn [getFacetValues]. repeat constructor.
  - reflexivity.
Defined.
